(** * tool-proxy: the session pipeline of the Ollama agent-mode proxy

    A shallow embedding of the Python sources

      - [conversation_manager.py]: the token estimator, the tool-sequence
        partition and the context-window budgeter;
      - [main.py]: the tool-call translation, the stream translator, the
        tool orchestration and the non-streaming reply;
      - [proxy.py]: the plain translator (reply and stream);
      - [tool_executor.py]: the dispatcher, the path guard and the file tools;

    followed by the properties of the specification, C1 to C10, and by
    further properties of the same code, X1 to X26. *)

From Stdlib Require Import ZArith String Ascii List Lia Permutation DecimalString
  DecimalNat.
From stdpp Require Import gmap strings list sorting.

Open Scope string_scope.
Open Scope nat_scope.
Open Scope list_scope.

(** ** Python values

    Every datum the proxy handles comes from JSON: [None], booleans, integers,
    strings, lists and dictionaries with string keys.  A dictionary keeps its
    insertion order (as Python's [dict] and [json.dumps] do), hence the
    association list; a lookup returns the first binding of a key.  A string
    is the sequence of its characters, and [len] counts them.  Python's [==]
    is [py_eq]: it does not see the order of the keys of a dictionary, and it
    takes [False] and [True] for the numbers [0] and [1]. *)

Module Py.

#[warnings="-register-all"]
Inductive value : Type :=
| VNone
| VBool (b : bool)
| VInt (n : Z)
| VStr (s : string)
| VList (l : list value)
| VDict (d : list (string * value)).

(** [Dict[str, Any]]: the type of a message, a tool call, a request body. *)
Definition dict : Type := list (string * value).

Definition value_eq_dec : forall a b : value, {a = b} + {a <> b}.
Proof.
  fix IH 1. intros a b.
  destruct a as [|x|x|x|x|x], b as [|y|y|y|y|y]; try (right; discriminate).
  - left; reflexivity.
  - destruct (Bool.bool_dec x y) as [->|N]; [left; reflexivity | right; congruence].
  - destruct (Z.eq_dec x y) as [->|N]; [left; reflexivity | right; congruence].
  - destruct (String.string_dec x y) as [->|N]; [left; reflexivity | right; congruence].
  - assert (D : {x = y} + {x <> y}).
    { revert y. induction x as [|u x' IHx]; intros [|v y'];
        try (right; discriminate); [left; reflexivity|].
      destruct (IH u v) as [->|N]; [|right; congruence].
      destruct (IHx y') as [->|N]; [left; reflexivity | right; congruence]. }
    destruct D as [->|N]; [left; reflexivity | right; congruence].
  - assert (D : {x = y} + {x <> y}).
    { revert y. induction x as [|[k u] x' IHx]; intros [|[k' v] y'];
        try (right; discriminate); [left; reflexivity|].
      destruct (String.string_dec k k') as [->|N]; [|right; congruence].
      destruct (IH u v) as [->|N]; [|right; congruence].
      destruct (IHx y') as [->|N]; [left; reflexivity | right; congruence]. }
    destruct D as [->|N]; [left; reflexivity | right; congruence].
Defined.

#[global] Instance value_eqdec : EqDecision value := value_eq_dec.

(** [a == b].  Two dictionaries are equal when they have the same keys with
    equal values, in whatever order; two lists when they have equal elements
    at every position; [True == 1] and [False == 0]; values of different
    types are otherwise different.  [normal] writes a value with its booleans
    as numbers and the keys of its dictionaries in the order of
    [String.compare], each key once with the value that a lookup gives; two
    values are equal when they are written the same. *)
Fixpoint put (k : string) (v : value) (d : list (string * value))
    : list (string * value) :=
  match d with
  | [] => [(k, v)]
  | (k', v') :: d' =>
      match String.compare k k' with
      | Lt => (k, v) :: d
      | Eq => (k, v) :: d'
      | Gt => (k', v') :: put k v d'
      end
  end.

Fixpoint normal (v : value) : value :=
  match v with
  | VNone => VNone
  | VBool b => VInt (if b then 1 else 0)
  | VInt n => VInt n
  | VStr s => VStr s
  | VList l => VList (map normal l)
  | VDict d =>
      VDict ((fix items (d : list (string * value)) : list (string * value) :=
                match d with
                | [] => []
                | (k, x) :: d' => put k (normal x) (items d')
                end) d)
  end.

Definition py_eq (a b : value) : bool := bool_decide (normal a = normal b).

(** Exceptions: the class and the text that [str(e)] gives. *)
Inductive exc_class : Type :=
| TypeError | AttributeError | KeyError | ValueError | JSONDecodeError | OSError
| OtherException.

Inductive exc : Type := Exc (c : exc_class) (text : string).

Definition exc_str (e : exc) : string := match e with Exc _ text => text end.

(** A computation that returns or raises. *)
Inductive res (A : Type) : Type :=
| Ok (a : A)
| Raise (e : exc).
Arguments Ok {A} a.
Arguments Raise {A} e.

Definition bind {A B} (c : res A) (k : A -> res B) : res B :=
  match c with
  | Ok a => k a
  | Raise e => Raise e
  end.

Definition type_name (v : value) : string :=
  match v with
  | VNone => "NoneType"
  | VBool _ => "bool"
  | VInt _ => "int"
  | VStr _ => "str"
  | VList _ => "list"
  | VDict _ => "dict"
  end.

(** [bool(v)]: what [if v:] tests. *)
Definition truthy (v : value) : bool :=
  match v with
  | VNone => false
  | VBool b => b
  | VInt n => negb (n =? 0)%Z
  | VStr s => negb (String.eqb s "")
  | VList l => negb (match l with [] => true | _ => false end)
  | VDict d => negb (match d with [] => true | _ => false end)
  end.

(** [d.get(k)] on a dictionary, [None] when the key is absent. *)
Fixpoint lookup (d : dict) (k : string) : option value :=
  match d with
  | [] => None
  | (k', v) :: d' => if String.eqb k k' then Some v else lookup d' k
  end.

(** [k in d] *)
Definition has (d : dict) (k : string) : bool :=
  match lookup d k with Some _ => true | None => false end.

(** [d.get(k, default)] *)
Definition get (d : dict) (k : string) (default : value) : value :=
  match lookup d k with Some v => v | None => default end.

(** [d[k]] on a dictionary. *)
Definition item (d : dict) (k : string) : res value :=
  match lookup d k with
  | Some v => Ok v
  | None => Raise (Exc KeyError k)
  end.

(** [v.get(k, default)] on any value: only a dictionary has the method. *)
Definition py_get (v : value) (k : string) (default : value) : res value :=
  match v with
  | VDict d => Ok (get d k default)
  | _ => Raise (Exc AttributeError (type_name v +:+ " object has no attribute get"))
  end.

(** [v[k]] with a string [k] on any value. *)
Definition py_getitem (v : value) (k : string) : res value :=
  match v with
  | VDict d => item d k
  | _ => Raise (Exc TypeError (type_name v +:+ " object is not subscriptable by str"))
  end.

(** Substring test, [a in b] on two strings. *)
Fixpoint substring_of (a b : string) : bool :=
  String.prefix a b ||
  match b with
  | EmptyString => false
  | String _ b' => substring_of a b'
  end.

(** [k in v] with a string [k] on any value: a key of a dictionary, an element
    of a list, a substring of a string. *)
Definition py_contains (k : string) (v : value) : res bool :=
  match v with
  | VDict d => Ok (has d k)
  | VList l => Ok (bool_decide (VStr k ∈ l))
  | VStr s => Ok (substring_of k s)
  | _ => Raise (Exc TypeError ("argument of type " +:+ type_name v +:+ " is not iterable"))
  end.

(** [len(v)] *)
Definition py_len (v : value) : res nat :=
  match v with
  | VStr s => Ok (String.length s)
  | VList l => Ok (length l)
  | VDict d => Ok (length d)
  | _ => Raise (Exc TypeError ("object of type " +:+ type_name v +:+ " has no len()"))
  end.

(** The elements that [for x in v] visits: those of a list, the keys of a
    dictionary, the characters of a string. *)
Definition py_iter (v : value) : res (list value) :=
  match v with
  | VList l => Ok l
  | VDict d => Ok (map (fun kv => VStr (fst kv)) d)
  | VStr s => Ok (map (fun c => VStr (String c EmptyString)) (list_ascii_of_string s))
  | _ => Raise (Exc TypeError (type_name v +:+ " object is not iterable"))
  end.

(** The [json] module of the standard library: [json.dumps] on a value and
    [json.loads] on a text ([None] for a [JSONDecodeError]). *)
Class Json : Type := {
  dumps : value -> string;
  loads : string -> option value
}.

End Py.

Export Py.

Declare Scope res_scope.
Delimit Scope res_scope with res.
Notation "x <- c ;; k" := (bind c (fun x => k))
  (at level 100, c at next level, right associativity) : res_scope.
Open Scope res_scope.

(** ** conversation_manager.py *)

Module ConversationManager.

(** Where the sessions are kept: in Redis ([use_redis]) under the key
    [conversation:<session_id>], or else in the file
    [storage_dir / <session_id>.json].  [session_file] is that file as the
    operating system finds it, so that two session ids that name one file
    ([s1] and [./s1]) have one place, or the exception of [open] when the
    file cannot be opened for writing (a session id [a/b] when the storage
    directory has no directory [a]).  Redis is taken to answer, and a
    session to be within its expiry time. *)
Class Storage : Type := {
  use_redis : bool;
  session_file : string -> res string
}.

Section Store.
Context `{Storage}.

(** The place of a session: the Redis key or the session file. *)
Definition place (session_id : string) : res string :=
  if use_redis then Ok ("conversation:" +:+ session_id)
  else session_file session_id.

(** The store holds the message lists that [save_message] has written, each
    under its place. *)
Definition save_message (session_id : string) (messages : list dict)
    (store : gmap string (list dict)) : res (gmap string (list dict)) :=
  key <- place session_id ;;
  Ok (<[key := messages]> store).

(** A file that cannot be opened does not exist. *)
Definition get_history (session_id : string) (store : gmap string (list dict))
    : list dict :=
  match place session_id with
  | Ok key =>
      match store !! key with
      | Some messages => messages
      | None => []
      end
  | Raise _ => []
  end.

Definition session_exists (session_id : string) (store : gmap string (list dict))
    : bool :=
  match place session_id with
  | Ok key => bool_decide (is_Some (store !! key))
  | Raise _ => false
  end.

End Store.

Section Budgeter.
Context `{Json}.

(** The increment of [total] for one tool call (the body of
    [for call in tool_calls]). *)
Definition call_tokens (total : nat) (call : value) : res nat :=
  has_function <- py_contains "function" call ;;
  if has_function : bool then
    fn <- py_getitem call "function" ;;
    name <- py_get fn "name" (VStr "") ;;
    name_len <- py_len name ;;
    let total := total + name_len / 4 in
    args <- py_get fn "arguments" (VStr "{}") ;;
    match args with
    | VStr s => Ok (total + String.length s / 4)
    | VDict _ => Ok (total + String.length (dumps args) / 4)
    | _ => Ok total
    end
  else Ok total.

Fixpoint calls_tokens (total : nat) (calls : list value) : res nat :=
  match calls with
  | [] => Ok total
  | call :: calls' =>
      total <- call_tokens total call ;;
      calls_tokens total calls'
  end.

(** The increment of [total] for one message (the body of
    [for msg in messages]). *)
Definition msg_tokens (total : nat) (msg : dict) : res nat :=
  (* Role and metadata overhead *)
  let total := total + 4 in
  (* Content tokens *)
  let total :=
    if has msg "content" && truthy (get msg "content" VNone) then
      match get msg "content" VNone with
      | VStr content => total + String.length content / 4
      | _ => total
      end
    else total in
  (* Tool calls tokens *)
  total <-
    (if has msg "tool_calls" && truthy (get msg "tool_calls" VNone) then
       let tool_calls := get msg "tool_calls" VNone in
       n <- py_len tool_calls ;;
       let total := total + n * 5 in
       calls <- py_iter tool_calls ;;
       calls_tokens total calls
     else Ok total) ;;
  (* Tool response tokens *)
  if bool_decide (get msg "role" VNone = VStr "tool") && has msg "content" then
    match get msg "content" VNone with
    | VStr content => Ok (total + String.length content / 4)
    | _ => Ok total
    end
  else Ok total.

Fixpoint estimate_loop (total : nat) (messages : list dict) : res nat :=
  match messages with
  | [] => Ok total
  | msg :: messages' =>
      total <- msg_tokens total msg ;;
      estimate_loop total messages'
  end.

Definition _estimate_token_count (messages : list dict) : res nat :=
  estimate_loop 0 messages.

(** [_identify_tool_sequences]: the loop over the messages, with its three
    variables. *)
Fixpoint identify_loop (messages : list dict) (sequences : list (list dict))
    (current_sequence : list dict) (in_tool_sequence : bool)
    : list (list dict) :=
  match messages with
  | [] =>
      (* Add final sequence *)
      match current_sequence with
      | [] => sequences
      | _ => sequences ++ [current_sequence]
      end
  | msg :: messages' =>
      let role := get msg "role" (VStr "") in
      if bool_decide (role = VStr "assistant") && has msg "tool_calls"
         && truthy (get msg "tool_calls" VNone) then
        (* Start of a tool sequence *)
        let sequences :=
          match current_sequence with
          | [] => sequences
          | _ => sequences ++ [current_sequence]
          end in
        identify_loop messages' sequences [msg] true
      else if bool_decide (role = VStr "tool") && in_tool_sequence then
        (* Tool response *)
        identify_loop messages' sequences (current_sequence ++ [msg]) in_tool_sequence
      else if in_tool_sequence && negb (bool_decide (role = VStr "tool")) then
        (* End of tool sequence *)
        identify_loop messages' (sequences ++ [current_sequence]) [msg] false
      else
        (* Regular message *)
        match current_sequence with
        | [] => identify_loop messages' sequences [msg] in_tool_sequence
        | _ => identify_loop messages' (sequences ++ [current_sequence]) [msg]
                 in_tool_sequence
        end
  end.

Definition _identify_tool_sequences (messages : list dict) : list (list dict) :=
  identify_loop messages [] [] false.

(** [messages.index(x)]: the position of the first element equal ([==]) to
    [x]. *)
Fixpoint index (x : dict) (messages : list dict) : option nat :=
  match messages with
  | [] => None
  | y :: messages' =>
      if py_eq (VDict y) (VDict x) then Some 0 else S <$> index x messages'
  end.

(** [x in messages]: some element is equal ([==]) to [x]. *)
Definition contains (messages : list dict) (x : dict) : bool :=
  existsb (fun y => py_eq (VDict y) (VDict x)) messages.

(** The sort key [lambda x: messages.index(x) if x in messages else 0]. *)
Definition original_position (messages : list dict) (x : dict) : nat :=
  if contains messages x
  then match index x messages with Some i => i | None => 0 end
  else 0.

(** [sorted(l, key=key)]: a stable sort; elements with equal keys keep the
    order they have in [l]. *)
Fixpoint insert_by (key : dict -> nat) (x : dict) (l : list dict) : list dict :=
  match l with
  | [] => [x]
  | y :: l' => if key x <=? key y then x :: l else y :: insert_by key x l'
  end.

Fixpoint sorted (l : list dict) (key : dict -> nat) : list dict :=
  match l with
  | [] => []
  | x :: l' => insert_by key x (sorted l' key)
  end.

(** The low-budget loop, [for msg in reversed(messages)], on the reversed
    list. *)
Fixpoint tail_fill_loop (reversed : list dict) (remaining_tokens : Z)
    (last_messages : list dict) : res (list dict) :=
  match reversed with
  | [] => Ok last_messages
  | msg :: reversed' =>
      msg_tokens <- _estimate_token_count [msg] ;;
      if (Z.of_nat msg_tokens <=? remaining_tokens)%Z then
        tail_fill_loop reversed' (remaining_tokens - Z.of_nat msg_tokens)
          (msg :: last_messages)
      else Ok last_messages
  end.

(** The sliding-window loop, [for sequence in reversed(sequences)], on the
    reversed list. *)
Fixpoint pack_loop (reversed : list (list dict)) (remaining_tokens : Z)
    (result : list dict) : res (list dict) :=
  match reversed with
  | [] => Ok result
  | sequence :: reversed' =>
      seq_tokens <- _estimate_token_count sequence ;;
      if (Z.of_nat seq_tokens <=? remaining_tokens)%Z then
        pack_loop reversed' (remaining_tokens - Z.of_nat seq_tokens)
          (result ++ sequence)
      else
        (* If sequence doesn't fit, try to fit the most recent message *)
        match last sequence with
        | Some last_msg =>
            if (0 <? remaining_tokens)%Z then
              last_tokens <- _estimate_token_count [last_msg] ;;
              if (Z.of_nat last_tokens <=? remaining_tokens)%Z
              then pack_loop reversed' remaining_tokens (result ++ [last_msg])
              else pack_loop reversed' remaining_tokens result
            else pack_loop reversed' remaining_tokens result
        | None => pack_loop reversed' remaining_tokens result
        end
  end.

(** The leading system message, kept apart: [result] and the remaining
    [messages] after [result.append(messages[0]); messages = messages[1:]]. *)
Definition reserve_system (messages : list dict) : list dict * list dict :=
  match messages with
  | first :: rest =>
      if bool_decide (get first "role" VNone = VStr "system")
      then ([first], rest)
      else ([], messages)
  | [] => ([], [])
  end.

Definition manage_context_window (messages : list dict) (max_tokens : Z)
    : res (list dict) :=
  match messages with
  | [] => Ok []
  | _ :: _ =>
      (* Estimate token count *)
      estimated_tokens <- _estimate_token_count messages ;;
      (* If under limit, return as is *)
      if (Z.of_nat estimated_tokens <=? max_tokens)%Z then Ok messages
      else
        (* Keep system message if present *)
        let '(result, messages) := reserve_system messages in
        (* Calculate tokens used by system message *)
        system_tokens <- _estimate_token_count result ;;
        let remaining_tokens := (max_tokens - Z.of_nat system_tokens)%Z in
        if (remaining_tokens <? 1000)%Z then
          (* Just keep the last few messages *)
          last_messages <- tail_fill_loop (reverse messages) remaining_tokens [] ;;
          Ok (result ++ last_messages)
        else
          (* Sliding window over the tool sequences *)
          let sequences := _identify_tool_sequences messages in
          result <- pack_loop (reverse sequences) remaining_tokens result ;;
          (* Sort messages by their original order *)
          Ok (sorted result (original_position messages))
  end.

End Budgeter.

End ConversationManager.

(** ** tool_executor.py *)

Module ToolExecutor.

(** The operating system under the executor: [pathlib], [os] and the tools
    that run processes.  A path is the text that [str(path)] gives. *)
Class System : Type := {
  World : Type;
  (** [a / b] on paths *)
  joinpath : string -> string -> string;
  (** [path.resolve()] *)
  resolve : World -> string -> string;
  (** [path.parent] *)
  parent : string -> string;
  (** [path.exists()], [path.is_dir()] *)
  path_exists : World -> string -> bool;
  is_dir : World -> string -> bool;
  (** [path.read_text()], [path.write_text(data)] *)
  read_text : World -> string -> res string;
  write_text : string -> string -> World -> res unit * World;
  (** [path.mkdir(parents=True, exist_ok=True)] *)
  mkdir_parents : string -> World -> res unit * World;
  (** [f.name for f in path.iterdir()] *)
  iterdir_names : World -> string -> res (list string);
  (** [os.walk(path)]: each directory with the names of its files;
      [os.path.relpath], [os.path.join] *)
  walk : World -> string -> list (string * list string);
  relpath : string -> string -> string;
  path_join : string -> string -> string;
  (** The tools that are not file tools ([run_terminal_command],
      [grep_search], [file_glob_search], [search_web], [view_diff],
      [read_currently_open_file], [create_rule_block]), called with the
      keyword arguments. *)
  external_tool : string -> value -> World -> res value * World
}.

Section Executor.
Context `{System}.

(** [self.workspace] *)
Variable workspace : string.

Definition error_result (text : string) : value :=
  VDict [("error", VStr text)].

(** [except Exception as e: return {"error": str(e)}] *)
Definition catch (r : res value) : value :=
  match r with
  | Ok v => v
  | Raise e => error_result (exc_str e)
  end.

(** A parameter annotated [str]: an argument of another type makes the first
    operation on it raise [TypeError]. *)
Definition as_str (v : value) : res string :=
  match v with
  | VStr s => Ok s
  | _ => Raise (Exc TypeError ("expected str, not " +:+ type_name v))
  end.

Definition _resolve_path (filepath : string) (w : World) : res string :=
  let path := resolve w (joinpath workspace filepath) in
  (* Prevent path traversal *)
  if negb (String.prefix (resolve w workspace) path) then
    Raise (Exc ValueError ("Path traversal detected: " +:+ filepath))
  else Ok path.

Definition read_file (filepath : value) (w : World) : value * World :=
  (catch (
     filepath <- as_str filepath ;;
     path <- _resolve_path filepath w ;;
     if negb (path_exists w path) then
       Ok (error_result ("File not found: " +:+ filepath))
     else
       content <- read_text w path ;;
       Ok (VDict [("content", VStr content)])),
   w).

Definition success_result (text : string) : value :=
  VDict [("success", VBool true); ("message", VStr text)].

Definition edit_existing_file (filepath changes : value) (w : World)
    : value * World :=
  match (filepath <- as_str filepath ;;
         path <- _resolve_path filepath w ;; Ok (filepath, path)) with
  | Raise e => (error_result (exc_str e), w)
  | Ok (filepath, path) =>
      if negb (path_exists w path) then
        (error_result ("File not found: " +:+ filepath), w)
      else
        (* Apply the changes *)
        match as_str changes with
        | Raise e => (error_result (exc_str e), w)
        | Ok changes =>
            match write_text path changes w with
            | (Raise e, w') => (error_result (exc_str e), w')
            | (Ok _, w') =>
                (success_result ("File " +:+ filepath +:+ " updated successfully"), w')
            end
        end
  end.

Definition create_new_file (filepath contents : value) (w : World)
    : value * World :=
  match (filepath <- as_str filepath ;;
         path <- _resolve_path filepath w ;; Ok (filepath, path)) with
  | Raise e => (error_result (exc_str e), w)
  | Ok (filepath, path) =>
      (* Create parent directories if they don't exist *)
      match mkdir_parents (parent path) w with
      | (Raise e, w') => (error_result (exc_str e), w')
      | (Ok _, w') =>
          (* Write the contents *)
          match as_str contents with
          | Raise e => (error_result (exc_str e), w')
          | Ok contents =>
              match write_text path contents w' with
              | (Raise e, w'') => (error_result (exc_str e), w'')
              | (Ok _, w'') =>
                  (success_result ("File " +:+ filepath +:+ " created successfully"), w'')
              end
          end
      end
  end.

Definition list_directory (dirPath recursive : value) (w : World)
    : value * World :=
  (catch (
     dirPath <- as_str dirPath ;;
     path <- _resolve_path dirPath w ;;
     if negb (path_exists w path) || negb (is_dir w path) then
       Ok (error_result ("Directory not found: " +:+ dirPath))
     else
       files <-
         (if truthy recursive then
            Ok (flat_map
                  (fun entry =>
                     let rel_root := relpath (fst entry) workspace in
                     map (fun file => path_join rel_root file) (snd entry))
                  (walk w path))
          else iterdir_names w path) ;;
       Ok (VDict [("files", VList (map VStr files))])),
   w).

(** The call [handler] of a method with the keyword arguments [arguments]
    unpacked: they are bound to the parameters
    [required] and [optional] (with their defaults), in that order. *)
Definition bind_kwargs (required : list string) (optional : list (string * value))
    (arguments : value) : res (list value) :=
  match arguments with
  | VDict d =>
      match List.find (fun kv => negb (existsb (String.eqb (fst kv))
                                         (required ++ map fst optional))) d with
      | Some kv =>
          Raise (Exc TypeError ("got an unexpected keyword argument " +:+ fst kv))
      | None =>
          match List.find (fun k => negb (has d k)) required with
          | Some k => Raise (Exc TypeError ("missing 1 required positional argument: " +:+ k))
          | None =>
              Ok (map (fun k => get d k VNone) required
                  ++ map (fun kv => get d (fst kv) (snd kv)) optional)
          end
      end
  | _ => Raise (Exc TypeError ("argument after ** must be a mapping, not " +:+ type_name arguments))
  end.

Definition handler : Type := value -> World -> res value * World.

Definition call_read_file : handler := fun arguments w =>
  match bind_kwargs ["filepath"] [] arguments with
  | Ok [filepath] => let (r, w') := read_file filepath w in (Ok r, w')
  | Ok _ => (* not reached: one value for each parameter *)
      (Raise (Exc TypeError "arguments"), w)
  | Raise e => (Raise e, w)
  end.

Definition call_edit_existing_file : handler := fun arguments w =>
  match bind_kwargs ["filepath"; "changes"] [] arguments with
  | Ok [filepath; changes] =>
      let (r, w') := edit_existing_file filepath changes w in (Ok r, w')
  | Ok _ => (* not reached: one value for each parameter *)
      (Raise (Exc TypeError "arguments"), w)
  | Raise e => (Raise e, w)
  end.

Definition call_create_new_file : handler := fun arguments w =>
  match bind_kwargs ["filepath"; "contents"] [] arguments with
  | Ok [filepath; contents] =>
      let (r, w') := create_new_file filepath contents w in (Ok r, w')
  | Ok _ => (* not reached: one value for each parameter *)
      (Raise (Exc TypeError "arguments"), w)
  | Raise e => (Raise e, w)
  end.

Definition call_list_directory : handler := fun arguments w =>
  match bind_kwargs ["dirPath"] [("recursive", VBool false)] arguments with
  | Ok [dirPath; recursive] =>
      let (r, w') := list_directory dirPath recursive w in (Ok r, w')
  | Ok _ => (* not reached: one value for each parameter *)
      (Raise (Exc TypeError "arguments"), w)
  | Raise e => (Raise e, w)
  end.

(** The table [handlers] of [execute_tool]. *)
Definition handlers : list (string * handler) :=
  [ ("builtin_read_file", call_read_file);
    ("builtin_edit_existing_file", call_edit_existing_file);
    ("builtin_create_new_file", call_create_new_file);
    ("builtin_run_terminal_command", external_tool "run_terminal_command");
    ("builtin_grep_search", external_tool "grep_search");
    ("builtin_file_glob_search", external_tool "file_glob_search");
    ("builtin_search_web", external_tool "search_web");
    ("builtin_view_diff", external_tool "view_diff");
    ("builtin_read_currently_open_file", external_tool "read_currently_open_file");
    ("builtin_ls", call_list_directory);
    ("builtin_create_rule_block", external_tool "create_rule_block") ].

Fixpoint handlers_get (table : list (string * handler)) (name : string)
    : option handler :=
  match table with
  | [] => None
  | (k, h) :: table' => if String.eqb name k then Some h else handlers_get table' name
  end.

(** [str(v)] of a value that can be a key of [handlers]. *)
Definition py_str (v : value) : string :=
  match v with
  | VStr s => s
  | VNone => "None"
  | VBool true => "True"
  | VBool false => "False"
  | VInt n => DecimalString.NilZero.string_of_int (Z.to_int n)
  | VList _ | VDict _ => type_name v
  end.

Definition execute_tool (tool_name : value) (arguments : value) (w : World)
    : res value * World :=
  match tool_name with
  | VList _ | VDict _ =>
      (* [handlers.get] hashes its key *)
      (Raise (Exc TypeError ("unhashable type: " +:+ type_name tool_name)), w)
  | _ =>
      match (match tool_name with
             | VStr name => handlers_get handlers name
             | _ => None
             end) with
      | None => (Ok (error_result ("Unknown tool: " +:+ py_str tool_name)), w)
      | Some handler =>
          match handler arguments w with
          | (Ok result, w') => (Ok result, w')
          | (Raise e, w') =>
              (Ok (error_result ("Tool execution failed: " +:+ exc_str e)), w')
          end
      end
  end.

End Executor.

End ToolExecutor.

(** ** main.py *)

Module Main.

Import ConversationManager ToolExecutor.

(** The line feed of the frames. *)
Definition nl : string := String (ascii_of_nat 10) EmptyString.

(** [str(i)] of a list position. *)
Definition decimal (i : nat) : string :=
  DecimalString.NilEmpty.string_of_uint (Nat.to_uint i).

(** The characters that [str.strip] removes. *)
Definition is_space (c : ascii) : bool :=
  let n := nat_of_ascii c in
  ((9 <=? n) && (n <=? 13)) || ((28 <=? n) && (n <=? 32))
  || (n =? 133) || (n =? 160).

(** [not line.strip()] *)
Fixpoint is_blank (line : string) : bool :=
  match line with
  | EmptyString => true
  | String c line' => is_space c && is_blank line'
  end.

Section App.
Context `{Json} `{System} `{Storage}.

Variable workspace : string.

(** The comprehension of [transform_tool_calls], from position [i] on. *)
Fixpoint transform_calls_from (i : nat) (tool_calls : list value)
    : res (list dict) :=
  match tool_calls with
  | [] => Ok []
  | call :: tool_calls' =>
      id <- py_get call "id" (VStr ("call_" +:+ decimal i)) ;;
      fn <- py_getitem call "function" ;;
      name <- py_getitem fn "name" ;;
      arguments <- py_getitem fn "arguments" ;;
      rest <- transform_calls_from (S i) tool_calls' ;;
      Ok ([ ("id", id);
            ("type", VStr "function");
            ("function", VDict [ ("name", name);
                                 ("arguments", VStr (dumps arguments)) ]) ]
          :: rest)
  end.

Definition transform_tool_calls (tool_calls : value) : res (list dict) :=
  calls <- py_iter tool_calls ;;
  transform_calls_from 0 calls.

(** A frame of the event stream, [f"data: {json.dumps(chunk)}\n\n"]. *)
Definition sse (chunk : dict) : string :=
  "data: " +:+ dumps (VDict chunk) +:+ nl +:+ nl.

Definition done_frame : string := "data: [DONE]" +:+ nl +:+ nl.

(** The [openai_chunk] of [transform_ollama_stream]. *)
Definition openai_chunk (chunk : dict) (delta : dict) (finish_reason : value)
    : dict :=
  [ ("id", get chunk "id" (VStr ""));
    ("object", VStr "chat.completion.chunk");
    ("created", get chunk "created" (VInt 0));
    ("model", get chunk "model" (VStr ""));
    ("choices", VList [VDict [ ("index", VInt 0);
                               ("delta", VDict delta);
                               ("finish_reason", finish_reason) ]]) ].

(** The frames that one parsed line yields (the body of the [try]); an
    exception can only be raised before the first of them. *)
Definition line_frames (parsed : value) : res (list string) :=
  match parsed with
  | VDict chunk =>
      tool_calls <- py_get (get chunk "message" (VDict [])) "tool_calls" VNone ;;
      frames <-
        (if truthy tool_calls then
           (* Handle tool calls *)
           message <- item chunk "message" ;;
           tool_calls <- py_getitem message "tool_calls" ;;
           tool_calls <- transform_tool_calls tool_calls ;;
           Ok [sse (openai_chunk chunk
                      [("tool_calls", VList (map VDict tool_calls))] VNone)]
         else
           content <- py_get (get chunk "message" (VDict [])) "content" VNone ;;
           if truthy content then
             (* Handle content *)
             message <- item chunk "message" ;;
             content <- py_getitem message "content" ;;
             Ok [sse (openai_chunk chunk [("content", content)] VNone)]
           else Ok []) ;;
      (* Handle finish reason *)
      if truthy (get chunk "done" (VBool false)) then
        Ok (frames ++ [sse (openai_chunk chunk [] (VStr "stop"))])
      else Ok frames
  | _ =>
      Raise (Exc AttributeError (type_name parsed +:+ " object has no attribute get"))
  end.

(** The generator [transform_ollama_stream] on the lines of the backend: the
    frames it yields, and the exception that ends it if one is raised. *)
Fixpoint transform_ollama_stream (stream : list string)
    : list string * option exc :=
  match stream with
  | [] => ([done_frame], None)
  | line :: stream' =>
      if is_blank line then transform_ollama_stream stream'
      else
        match loads line with
        | None => (* except json.JSONDecodeError: continue *)
            transform_ollama_stream stream'
        | Some chunk =>
            match line_frames chunk with
            | Raise e => ([], Some e)
            | Ok frames =>
                let (later, ended) := transform_ollama_stream stream' in
                (frames ++ later, ended)
            end
        end
  end.

(** What the orchestration acts on: the operating system, the session store
    (the message lists by place) and the counter [tool_executions]. *)
Record state : Type := State {
  world : World;
  store : gmap string (list dict);
  tool_executions : nat
}.

(** [json.loads(text)] *)
Definition json_loads (text : value) : res value :=
  match text with
  | VStr s =>
      match loads s with
      | Some v => Ok v
      | None => Raise (Exc JSONDecodeError "Expecting value")
      end
  | _ =>
      Raise (Exc TypeError ("the JSON object must be str, bytes or bytearray, not "
                            +:+ type_name text))
  end.

(** The loop [for call in tool_calls] of [handle_tool_calls]. *)
Fixpoint tool_loop (tool_calls : list dict) (new_messages : list dict)
    (st : state) : res (list dict) * state :=
  match tool_calls with
  | [] => (Ok new_messages, st)
  | call :: tool_calls' =>
      match (fn <- item call "function" ;;
             tool_name <- py_getitem fn "name" ;;
             text <- py_getitem fn "arguments" ;;
             tool_arguments <- json_loads text ;;
             Ok (tool_name, tool_arguments)) with
      | Raise e => (Raise e, st)
      | Ok (tool_name, tool_arguments) =>
          (* Increment tool execution metric *)
          let executions := S (tool_executions st) in
          (* Execute the tool *)
          let (r, w) := execute_tool workspace tool_name tool_arguments (world st) in
          let st := State w (store st) executions in
          match r with
          | Raise e => (Raise e, st)
          | Ok tool_result =>
              (* Add tool response message *)
              match item call "id" with
              | Raise e => (Raise e, st)
              | Ok call_id =>
                  let tool_message :=
                    [ ("role", VStr "tool");
                      ("tool_call_id", call_id);
                      ("name", tool_name);
                      ("content", VStr (dumps tool_result)) ] in
                  tool_loop tool_calls' (new_messages ++ [tool_message]) st
              end
          end
      end
  end.

Definition handle_tool_calls (session_id : string) (messages : list dict)
    (tool_calls : list dict) (st : state) : res (list dict) * state :=
  let new_messages := messages in
  (* Add assistant message with tool calls *)
  let assistant_message :=
    [ ("role", VStr "assistant");
      ("tool_calls", VList (map VDict tool_calls)) ] in
  let new_messages := new_messages ++ [assistant_message] in
  (* Execute each tool call and add tool response messages *)
  match tool_loop tool_calls new_messages st with
  | (Raise e, st) => (Raise e, st)
  | (Ok new_messages, st) =>
      (* Save updated conversation *)
      match save_message session_id new_messages (store st) with
      | Raise e => (Raise e, st)
      | Ok saved =>
          (Ok new_messages, State (world st) saved (tool_executions st))
      end
  end.

(** The reply of [chat_completions] to a non-streaming request, from the
    response of the backend on: the response body, and the tool calls handed
    to the background task [handle_tool_calls] if there are any. *)
Definition completion (ollama_response : dict) (model : value)
    (message : dict) (finish_reason : string) : dict :=
  [ ("id", get ollama_response "id" (VStr ""));
    ("object", VStr "chat.completion");
    ("created", get ollama_response "created" (VInt 0));
    ("model", get ollama_response "model" model);
    ("choices", VList [VDict [ ("index", VInt 0);
                               ("message", VDict message);
                               ("finish_reason", VStr finish_reason) ]]) ].

Definition chat_completions_reply (response_json : value) (model : value)
    : res (dict * option (list dict)) :=
  match response_json with
  | VDict ollama_response =>
      tool_calls <-
        py_get (get ollama_response "message" (VDict [])) "tool_calls" VNone ;;
      if truthy tool_calls then
        (* Process tool calls if present *)
        message <- item ollama_response "message" ;;
        tool_calls <- py_getitem message "tool_calls" ;;
        tool_calls <- transform_tool_calls tool_calls ;;
        Ok (completion ollama_response model
              [ ("role", VStr "assistant");
                ("tool_calls", VList (map VDict tool_calls)) ]
              "tool_calls",
            Some tool_calls)
      else
        (* Regular text response *)
        content <-
          py_get (get ollama_response "message" (VDict [])) "content" (VStr "") ;;
        Ok (completion ollama_response model
              [ ("role", VStr "assistant"); ("content", content) ]
              "stop",
            None)
  | _ =>
      Raise (Exc AttributeError
               (type_name response_json +:+ " object has no attribute get"))
  end.

End App.

End Main.

(** ** proxy.py *)

Module Proxy.

Import Main.

Section Translator.
Context `{Json}.


(** The chunks of [process_streaming_response]. *)
Definition stream_chunk (chat_id : string) (creation_time : Z)
    (model_name : value) (delta : dict) (finish_reason : value) : dict :=
  [ ("id", VStr chat_id);
    ("object", VStr "chat.completion.chunk");
    ("created", VInt creation_time);
    ("model", model_name);
    ("choices", VList [VDict [ ("index", VInt 0);
                               ("delta", VDict delta);
                               ("finish_reason", finish_reason) ]]) ].

Section Stream.
Variables (chat_id : string) (creation_time : Z) (model_name : value).

(** The loop over [response.aiter_lines()]: the frames it yields, and the
    exception that ends the generator if one is raised. *)
Fixpoint content_frames (lines : list string) : list string * option exc :=
  match lines with
  | [] => ([], None)
  | line :: lines' =>
      if is_blank line then content_frames lines'
      else
        match loads line with
        | None => (* except json.JSONDecodeError: continue *)
            content_frames lines'
        | Some chunk_data =>
            match (message <- py_get chunk_data "message" (VDict []) ;;
                   py_get message "content" (VStr "")) with
            | Raise e => ([], Some e)
            | Ok content =>
                let (later, ended) := content_frames lines' in
                ((if truthy content then
                    [sse (stream_chunk chat_id creation_time model_name
                            [("content", content)] VNone)]
                  else []) ++ later,
                 ended)
            end
        end
  end.

End Stream.

Definition process_streaming_response (lines : list string)
    (model_name : value) (uuid4 : string) (now : Z)
    : list string * option exc :=
  let chat_id := "chatcmpl-" +:+ uuid4 in
  let creation_time := now in
  (* First chunk for the role *)
  let first_chunk :=
    stream_chunk chat_id creation_time model_name
      [("role", VStr "assistant")] VNone in
  (* Process the streaming content *)
  match content_frames chat_id creation_time model_name lines with
  | (frames, Some e) => (sse first_chunk :: frames, Some e)
  | (frames, None) =>
      (* Last chunk *)
      let last_chunk :=
        stream_chunk chat_id creation_time model_name [] (VStr "stop") in
      (sse first_chunk :: frames ++ [sse last_chunk; done_frame], None)
  end.

End Translator.

End Proxy.

(** ** The words of the specification

    The estimator as the specification describes it, and the vocabulary of
    the properties. *)

Module Reference.

Import ConversationManager ToolExecutor Main.

Section Words.
Context `{Json}.

(** [len(text) / 4] for a text, nothing for another value. *)
Definition text_tokens (v : value) : nat :=
  match v with
  | VStr s => String.length s / 4
  | _ => 0
  end.

(** The tool calls of a message. *)
Definition calls_of (msg : dict) : list value :=
  match get msg "tool_calls" VNone with
  | VList calls => calls
  | _ => []
  end.

Definition function_of (call : value) : dict :=
  match call with
  | VDict c => match get c "function" VNone with VDict fn => fn | _ => [] end
  | _ => []
  end.

Definition name_of (call : value) : string :=
  match get (function_of call) "name" (VStr "") with
  | VStr s => s
  | _ => ""
  end.

(** The arguments of a call as text: themselves when they are a text already,
    their serialization otherwise. *)
Definition serialized_arguments (call : value) : string :=
  match get (function_of call) "arguments" (VStr "{}") with
  | VStr s => s
  | args => dumps args
  end.

(** Modelled on the specification's sentence: 5 overhead tokens per tool call
    plus [len(name)/4 + len(serialized arguments)/4]. *)
Definition reference_call_tokens (call : value) : nat :=
  5 + String.length (name_of call) / 4
    + String.length (serialized_arguments call) / 4.

(** Modelled on the specification's sentence: 4 overhead tokens per message,
    plus [len(text) / 4] for the content, plus the tokens of the tool calls. *)
Definition reference_msg_tokens (msg : dict) : nat :=
  4 + text_tokens (get msg "content" VNone)
    + sum_list (reference_call_tokens <$> calls_of msg).

Definition reference_token_count (messages : list dict) : nat :=
  sum_list (reference_msg_tokens <$> messages).

(** What the code adds for a message of role [tool]: its content once more. *)
Definition tool_response_tokens (msg : dict) : nat :=
  if bool_decide (get msg "role" VNone = VStr "tool")
  then text_tokens (get msg "content" VNone)
  else 0.

Definition amended_token_count (messages : list dict) : nat :=
  sum_list ((fun msg => reference_msg_tokens msg + tool_response_tokens msg)
              <$> messages).

(** A tool call of the data model: a dictionary whose [function], if present,
    is a dictionary with a text for [name] and a text or a dictionary for
    [arguments] (each may be absent). *)
Definition well_formed_call (call : value) : Prop :=
  match call with
  | VDict c =>
      match lookup c "function" with
      | None => True
      | Some (VDict fn) =>
          match lookup fn "name" with
          | None | Some (VStr _) => True
          | Some _ => False
          end
          /\ match lookup fn "arguments" with
             | None | Some (VStr _) | Some (VDict _) => True
             | Some _ => False
             end
      | Some _ => False
      end
  | _ => False
  end.

(** A message of the data model: its [tool_calls], if present and not empty,
    is a list of tool calls. *)
Definition well_formed_message (msg : dict) : Prop :=
  match lookup msg "tool_calls" with
  | Some (VList calls) => Forall well_formed_call calls
  | Some v => truthy v = false
  | None => True
  end.

(** The estimator returns on this message, and with this count. *)
Definition priced (msg : dict) : Prop := exists c, msg_tokens 0 msg = Ok c.

Definition tokens (msg : dict) : nat :=
  match msg_tokens 0 msg with Ok c => c | Raise _ => 0 end.

(** What the sliding window keeps of a sequence: all of it, or the last
    message alone of a sequence of several, or nothing. *)
Inductive pick : list dict -> list dict -> Prop :=
| pick_whole sequence : pick sequence sequence
| pick_last sequence last_msg :
    last sequence = Some last_msg -> sequence <> [last_msg] ->
    pick sequence [last_msg]
| pick_nothing sequence : pick sequence [].


(** An assistant message that bears tool calls, and the shape of a
    sequence: one message, or such an assistant message followed by
    tool-role messages. *)
Definition bears_calls (msg : dict) : Prop :=
  get msg "role" (VStr "") = VStr "assistant"
  /\ has msg "tool_calls" = true
  /\ truthy (get msg "tool_calls" VNone) = true.

Definition sequence_shape (sequence : list dict) : Prop :=
  (exists msg, sequence = [msg])
  \/ (exists call answers,
        sequence = call :: answers
        /\ bears_calls call
        /\ Forall (fun msg => get msg "role" (VStr "") = VStr "tool") answers).

(** No two messages of the list are equal ([==]). *)
Definition no_two_equal (messages : list dict) : Prop :=
  forall i j x y,
    messages !! i = Some x -> messages !! j = Some y ->
    py_eq (VDict x) (VDict y) = true -> i = j.

(** The order that [sorted] establishes. *)
Definition key_le (key : dict -> nat) : relation dict :=
  fun x y => key x <= key y.

(** The retained messages are in the order of the conversation:
    [kept] is [messages] with some messages left out. *)
Definition in_conversation_order (kept messages : list dict) : Prop :=
  kept `sublist_of` messages.


(** The only element of [choices]. *)
Definition single_choice (response : dict) : option value :=
  match get response "choices" VNone with
  | VList [choice] => Some choice
  | _ => None
  end.

(** A chunk of the event stream, spelled out. *)
Definition chunk_with (id created model : value) (delta : dict)
    (finish_reason : value) : dict :=
  [ ("id", id);
    ("object", VStr "chat.completion.chunk");
    ("created", created);
    ("model", model);
    ("choices", VList [VDict [ ("index", VInt 0);
                               ("delta", VDict delta);
                               ("finish_reason", finish_reason) ]]) ].

(** The three lines of the backend of the stream-framing property, parsed. *)
Definition line_hi : value :=
  VDict [("message", VDict [("content", VStr "Hi")])].
Definition line_there : value :=
  VDict [("message", VDict [("content", VStr " there")])].
Definition line_done : value := VDict [("done", VBool true)].

(** A value that can be the key of a dictionary: any but a list or a
    dictionary. *)
Definition hashable (v : value) : Prop :=
  match v with
  | VList _ | VDict _ => False
  | _ => True
  end.

(** A tool call that the orchestration can read: an [id], and a [function]
    with a [name] and, for [arguments], a text that [json.loads] reads. *)
Definition readable_tool_call (call : dict) (name : value) : Prop :=
  exists (id : value) (fn : dict) (text : string) (arguments : value),
    lookup call "id" = Some id
    /\ lookup call "function" = Some (VDict fn)
    /\ lookup fn "name" = Some name
    /\ lookup fn "arguments" = Some (VStr text)
    /\ loads text = Some arguments.

(** A tool call that the orchestration can run: readable, with a name that
    can be looked up in the table of the handlers. *)
Definition well_formed_tool_call (call : dict) : Prop :=
  exists name : value, readable_tool_call call name /\ hashable name.

(** A tool call that the orchestration cannot look up: readable, with a
    list or a dictionary for a name. *)
Definition unhashable_tool_call (call : dict) : Prop :=
  exists name : value, readable_tool_call call name /\ ~ hashable name.

(** The name that a call gives. *)
Definition called_name (call : dict) : value :=
  match get call "function" VNone with
  | VDict fn => get fn "name" VNone
  | _ => VNone
  end.

End Words.

Section Tools.
Context `{Json} `{System}.
Variable workspace : string.

(** [name] is a key of the table [handlers]. *)
Definition registered (name : value) : Prop :=
  exists s, name = VStr s /\ is_Some (handlers_get (handlers workspace) s).

(** The tool message that answers a call: tagged with the identifier and the
    name of the call, its content the serialized result, which for a name
    that is not registered is the error [Unknown tool]. *)
Definition answers (call tool_message : dict) : Prop :=
  exists tool_result : value,
    tool_message = [ ("role", VStr "tool");
                     ("tool_call_id", get call "id" VNone);
                     ("name", called_name call);
                     ("content", VStr (dumps tool_result)) ]
    /\ (~ registered (called_name call) ->
        tool_result
        = error_result ("Unknown tool: " +:+ py_str (called_name call))).

End Tools.

End Reference.
(** ** A sample [json] instance, for the concrete examples

    A rendering in the manner of [json.dumps] (items separated by a comma and
    a space, keys from values by a colon and a space), and a reader that
    recognises the texts of a given table of values. *)

Module Sample.

Definition quote : string := String (ascii_of_nat 34) EmptyString.

Definition render_int (n : Z) : string :=
  DecimalString.NilZero.string_of_int (Z.to_int n).

Fixpoint render (v : value) : string :=
  match v with
  | VNone => "null"
  | VBool true => "true"
  | VBool false => "false"
  | VInt n => render_int n
  | VStr s => quote +:+ s +:+ quote
  | VList l =>
      "[" +:+
      (fix items (l : list value) : string :=
         match l with
         | [] => ""
         | [x] => render x
         | x :: l' => render x +:+ ", " +:+ items l'
         end) l +:+ "]"
  | VDict d =>
      "{" +:+
      (fix items (d : list (string * value)) : string :=
         match d with
         | [] => ""
         | [(k, x)] => quote +:+ k +:+ quote +:+ ": " +:+ render x
         | (k, x) :: d' =>
             quote +:+ k +:+ quote +:+ ": " +:+ render x +:+ ", " +:+ items d'
         end) d +:+ "}"
  end.

Definition read_among (table : list value) (text : string) : option value :=
  List.find (fun v => String.eqb (render v) text) table.

Definition json_of (table : list value) : Json :=
  {| dumps := render; loads := read_among table |}.

(** A string of [n] letters. *)
Fixpoint letters (n : nat) : string :=
  match n with
  | 0 => ""
  | S n' => String "a" (letters n')
  end.

(** A file system of plain files under their paths as they are written
    (no links, no directories to list), and external tools that all fail. *)
Definition files : ToolExecutor.System := {|
  ToolExecutor.World := gmap string string;
  ToolExecutor.joinpath := fun a b =>
    if String.prefix "/" b then b else a +:+ "/" +:+ b;
  ToolExecutor.resolve := fun _ path => path;
  ToolExecutor.parent := fun path => path;
  ToolExecutor.path_exists := fun w path => bool_decide (is_Some (w !! path));
  ToolExecutor.is_dir := fun _ _ => false;
  ToolExecutor.read_text := fun w path =>
    match w !! path with
    | Some text => Ok text
    | None => Raise (Exc OSError "No such file or directory")
    end;
  ToolExecutor.write_text := fun path text w => (Ok tt, <[path := text]> w);
  ToolExecutor.mkdir_parents := fun _ w => (Ok tt, w);
  ToolExecutor.iterdir_names := fun _ _ => Raise (Exc OSError "Not a directory");
  ToolExecutor.walk := fun _ _ => [];
  ToolExecutor.relpath := fun path _ => path;
  ToolExecutor.path_join := fun a b => a +:+ "/" +:+ b;
  ToolExecutor.external_tool := fun name _ w =>
    (Raise (Exc OtherException (name +:+ " failed")), w)
|}.

(** Sessions kept in Redis. *)
Definition redis : ConversationManager.Storage := {|
  ConversationManager.use_redis := true;
  ConversationManager.session_file := fun _ =>
    Raise (Exc OSError "No such file or directory")
|}.

(** Messages and tool calls. *)
Definition message (role content : string) : dict :=
  [("role", VStr role); ("content", VStr content)].

Definition tool_call (id name arguments : string) : dict :=
  [ ("id", VStr id);
    ("type", VStr "function");
    ("function", VDict [("name", VStr name); ("arguments", VStr arguments)]) ].

Definition assistant_calling (calls : list dict) : dict :=
  [("role", VStr "assistant"); ("tool_calls", VList (map VDict calls))].

Definition tool_message (id name content : string) : dict :=
  [ ("role", VStr "tool");
    ("tool_call_id", VStr id);
    ("name", VStr name);
    ("content", VStr content) ].

(** A call of [builtin_ls] with 4000 characters of arguments, and its
    answer. *)
Definition asking : dict :=
  assistant_calling [tool_call "call_0" "builtin_ls" (letters (40 * 100))].
Definition answer : dict := tool_message "call_0" "builtin_ls" "{}".

(** A user message of 8000 characters. *)
Definition long_message : dict := message "user" (letters (80 * 100)).

(** The reader of the examples knows the three lines of the stream-framing
    property and the empty object. *)
Definition json : Json :=
  json_of [Reference.line_hi; Reference.line_there; Reference.line_done; VDict []].

(** The workspace of the examples. *)
Definition workspace : string := "/tmp/agent_workspace".

(** A tool call as the backend sends it. *)
Definition backend_ls : value :=
  VDict [("function", VDict [ ("name", VStr "builtin_ls");
                              ("arguments", VDict [("dirPath", VStr ".")]) ])].

(** A batch of three calls: a tool that does not exist, a tool that raises,
    and a tool called without its argument. *)
Definition batch : list dict :=
  [ tool_call "call_0" "no_such_tool" "{}";
    tool_call "call_1" "builtin_grep_search" "{}";
    tool_call "call_2" "builtin_read_file" "{}" ].

(** A call whose name is a list, as the backend sends it and as
    [transform_tool_calls] hands it on. *)
Definition backend_listed : value :=
  VDict [("function", VDict [ ("name", VList [VStr "builtin_ls"]);
                              ("arguments", VDict []) ])].

Definition listed_call : dict :=
  [ ("id", VStr "call_1");
    ("type", VStr "function");
    ("function", VDict [ ("name", VList [VStr "builtin_ls"]);
                         ("arguments", VStr "{}") ]) ].

(** A backend call of a tool that does not exist. *)
Definition backend_unknown : value :=
  VDict [("function", VDict [ ("name", VStr "no_such_tool");
                              ("arguments", VDict []) ])].

End Sample.
(** ** main.py, the path of a request *)

Module Gateway.

Import ConversationManager ToolExecutor Main.

(** [d[k] = v] on a dictionary: the binding of [k] is replaced where it
    stands, or added at the end. *)
Fixpoint dict_set (d : dict) (k : string) (v : value) : dict :=
  match d with
  | [] => [(k, v)]
  | (k', v') :: d' =>
      if String.eqb k k' then (k, v) :: d' else (k', v') :: dict_set d' k v
  end.

(** config.py: the values read from the environment at start-up, and the
    table of tool definitions. *)
Class Config : Type := {
  DEFAULT_MODEL : string;
  SUPPORTED_MODELS : list string;
  TOOL_DEFINITIONS : value
}.

Section Requests.
Context `{Json} `{System} `{Storage} `{Config}.

Variable workspace : string.

(** The backend: the body that [response.json()] gives for the request
    posted to [/api/chat], or the exception of the transport. *)
Variable ollama_chat : dict -> res value.

(** The backend asked for a stream: the lines that the response holds
    ready, or the exception of the transport. *)
Variable ollama_stream : dict -> res (list string).

Definition transform_to_ollama (body : dict) : dict :=
  let ollama_request :=
    [ ("model", get body "model" (VStr DEFAULT_MODEL));
      ("messages", get body "messages" (VList []));
      ("stream", get body "stream" (VBool false)) ] in
  (* Add temperature if provided *)
  let ollama_request :=
    if has body "temperature"
    then dict_set ollama_request "temperature" (get body "temperature" VNone)
    else ollama_request in
  (* Transform tools if provided *)
  let ollama_request :=
    if has body "tools"
    then dict_set ollama_request "tools" (get body "tools" VNone)
    else ollama_request in
  ollama_request.

(** [model in config.SUPPORTED_MODELS or model.startswith("ollama/")] *)
Definition model_supported (model : value) : res bool :=
  if bool_decide (model ∈ map VStr SUPPORTED_MODELS) then Ok true
  else
    match model with
    | VStr name => Ok (String.prefix "ollama/" name)
    | _ =>
        Raise (Exc AttributeError
                 (type_name model +:+ " object has no attribute startswith"))
    end.

(** The test that lets the stored history replace the messages of the
    request: there are none, or both lists start with the same system
    message.  [history[0]] on an empty history raises [IndexError]. *)
Definition adopt_history (messages history : list dict) : res (list dict) :=
  match messages with
  | [] => Ok history
  | first :: _ =>
      if bool_decide (get first "role" VNone = VStr "system") then
        match history with
        | [] => Raise (Exc OtherException "list index out of range")
        | stored :: _ =>
            if bool_decide (get stored "role" VNone = VStr "system")
               && py_eq (get first "content" VNone) (get stored "content" VNone)
            then Ok history
            else Ok messages
        end
      else Ok messages
  end.

(** The server: what the orchestration acts on, and the counters
    [request_count] and [active_sessions]. *)
Record server : Type := Server {
  app : state;
  request_count : nat;
  active_sessions : nat
}.

Definition sessions (sv : server) : gmap string (list dict) := store (app sv).

(** What [chat_completions] does before it calls the backend, for the
    validated body: [messages] is [body.get("messages", [])] and
    [session_id] is [body.get("session_id", f"session_{id(body)}")].  It
    gives the messages saved for the session and the request for the
    backend. *)
Definition prepare_chat (body : dict) (session_id : string)
    (messages : list dict) (sv : server) : res (list dict * dict) * server :=
  (* Increment request count metric; a session is counted as active *)
  let sv := Server (app sv) (S (request_count sv)) (S (active_sessions sv)) in
  (* If tools are not provided, add default tools *)
  let body :=
    if has body "tools" then body else dict_set body "tools" TOOL_DEFINITIONS in
  (* Load conversation history if session exists *)
  match (if session_exists session_id (sessions sv)
         then adopt_history messages (get_history session_id (sessions sv))
         else Ok messages) with
  | Raise e => (Raise e, sv)
  | Ok messages =>
      (* Manage context window *)
      match manage_context_window messages 4096 with
      | Raise e => (Raise e, sv)
      | Ok messages =>
          (* Save the initial conversation *)
          match save_message session_id messages (sessions sv) with
          | Raise e => (Raise e, sv)
          | Ok saved =>
              let sv :=
                Server (State (world (app sv)) saved (tool_executions (app sv)))
                  (request_count sv) (active_sessions sv) in
              (* Transform request for Ollama *)
              (Ok (messages, transform_to_ollama body), sv)
          end
      end
  end.

(** What [chat_completions] returns: a body for the framework to
    serialize, or a [StreamingResponse] whose generator,
    [transform_ollama_stream], is to read the lines of the backend once the
    function has returned. *)
Inductive http_response : Type :=
| Body (content : dict)
| StreamingResponse (lines : list string).

(** [chat_completions].  The background task [handle_tool_calls] runs once
    the response is made; what it returns or raises is not part of the
    response. *)
Definition chat_completions (body : dict) (session_id : string)
    (messages : list dict) (sv : server) : res http_response * server :=
  (* Get model and validate support *)
  let model := get body "model" (VStr DEFAULT_MODEL) in
  match model_supported model with
  | Raise e => (Raise e, sv)
  | Ok false =>
      (Ok (Body [("error", VStr "Model doesn't support tool calling")]), sv)
  | Ok true =>
      match prepare_chat body session_id messages sv with
      | (Raise e, sv) => (Raise e, sv)
      | (Ok (messages, ollama_request), sv) =>
          if truthy (get body "stream" (VBool false)) then
            (* Stream response *)
            match ollama_stream ollama_request with
            | Raise e => (Raise e, sv)
            | Ok lines => (Ok (StreamingResponse lines), sv)
            end
          else
            (* Non-streaming request *)
            match ollama_chat ollama_request with
            | Raise e => (Raise e, sv)
            | Ok ollama_response =>
                match chat_completions_reply ollama_response model with
                | Raise e => (Raise e, sv)
                | Ok (response, None) => (Ok (Body response), sv)
                | Ok (response, Some tool_calls) =>
                    (* Execute tools in background *)
                    let (_, st) :=
                      handle_tool_calls workspace session_id messages
                        tool_calls (app sv) in
                    (Ok (Body response),
                     Server st (request_count sv) (active_sessions sv))
                end
            end
      end
  end.

End Requests.

End Gateway.

(** ** proxy.py, the request to the backend *)

Module ProxyRequest.

Definition DEFAULT_MODEL : string := "qwen2.5-coder:7b-instruct".
Definition DEFAULT_SYSTEM_PROMPT : string :=
  "You are a helpful AI coding assistant.".

(** [any(msg.get("role") == "system" for msg in messages)] *)
Definition has_system (messages : list dict) : bool :=
  existsb (fun msg => bool_decide (get msg "role" VNone = VStr "system")) messages.

(** The messages of [call_ollama], [body.get("messages", [])], after the
    system prompt is added if not present. *)
Definition with_system_prompt (messages : list dict) : list dict :=
  match messages with
  | [] => messages
  | _ :: _ =>
      if negb (has_system messages)
      then [("role", VStr "system"); ("content", VStr DEFAULT_SYSTEM_PROMPT)]
           :: messages
      else messages
  end.

(** The [ollama_request] of [call_ollama]. *)
Definition ollama_request (body : dict) (messages : list dict) (stream : bool)
    : dict :=
  [ ("model", get body "model" (VStr DEFAULT_MODEL));
    ("messages", VList (map VDict (with_system_prompt messages)));
    ("stream", VBool stream) ].

End ProxyRequest.
(** ** More words for the properties *)

Module Words.

Import ConversationManager ToolExecutor Main Gateway.

Section Calls.
Context `{Json}.

(** A tool call of the backend that the orchestration can take up: its
    [function] has a text for [name], and [arguments] that [json.loads]
    reads back from what [json.dumps] writes. *)
Definition readable_call (call : value) : Prop :=
  exists (c fn : dict) (name : string) (arguments : value),
    call = VDict c
    /\ lookup c "function" = Some (VDict fn)
    /\ lookup fn "name" = Some (VStr name)
    /\ lookup fn "arguments" = Some arguments
    /\ loads (dumps arguments) = Some arguments.

(** The translation of the call at position [i]: the identifier of the
    backend or [call_<i>], the name as it is, the arguments serialized. *)
Definition translates (i : nat) (call : value) (translated : dict) : Prop :=
  exists (c fn : dict) (name arguments : value),
    call = VDict c
    /\ lookup c "function" = Some (VDict fn)
    /\ lookup fn "name" = Some name
    /\ lookup fn "arguments" = Some arguments
    /\ translated
       = [ ("id", get c "id" (VStr ("call_" +:+ decimal i)));
           ("type", VStr "function");
           ("function", VDict [ ("name", name);
                                ("arguments", VStr (dumps arguments)) ]) ].

(** [translates] along a list, from position [i] on. *)
Inductive translates_from : nat -> list value -> list dict -> Prop :=
| translates_nil i : translates_from i [] []
| translates_cons i call calls translated rest :
    translates i call translated ->
    translates_from (S i) calls rest ->
    translates_from i (call :: calls) (translated :: rest).

(** A line of the backend that the stream translators pass over: blank, or
    not JSON. *)
Definition skipped (line : string) : bool :=
  is_blank line || match loads line with Some _ => false | None => true end.

End Calls.

End Words.
(** ** A sample configuration and backend, for the concrete examples *)

Module Scenario.

Import ConversationManager ToolExecutor Main Gateway.

#[local] Existing Instance Sample.files.
#[local] Existing Instance Sample.redis.

(** The defaults of config.py; of its table of tool definitions, the first
    entry cut down to its name. *)
Definition config : Config := {|
  DEFAULT_MODEL := "llama3.1";
  SUPPORTED_MODELS := ["llama3.1"; "mistral"; "qwen2.5"];
  TOOL_DEFINITIONS :=
    VList [VDict [ ("type", VStr "function");
                   ("function", VDict [("name", VStr "builtin_read_file")]) ]]
|}.

(** A server that has seen no request. *)
Definition fresh : server := Server (State (∅ : gmap string string) ∅ 0) 0 0.

(** A server that holds one session, [s1]. *)
Definition with_session (history : list dict) : server :=
  Server (State (∅ : gmap string string) {[ "conversation:s1" := history ]} 0)
    1 1.

(** A backend that streams nothing. *)
Definition silent_backend (request : dict) : res (list string) := Ok [].

(** A call of [builtin_read_file] as the backend sends it, without
    identifier and without the parameter of the tool. *)
Definition backend_read : value :=
  VDict [("function", VDict [ ("name", VStr "builtin_read_file");
                              ("arguments", VDict []) ])].

(** A backend that answers every request with that one call. *)
Definition calling_backend (request : dict) : res value :=
  Ok (VDict [ ("model", get request "model" VNone);
              ("message", VDict [ ("role", VStr "assistant");
                                  ("tool_calls", VList [backend_read]) ]) ]).

(** A reader that knows the line [null] besides a line of content. *)
Definition json_null : Json :=
  Sample.json_of [Reference.line_hi; VNone].

(** A file beside the workspace, in a directory whose name continues the
    name of the workspace. *)
Definition beside : string := "/tmp/agent_workspace_evil/secret.txt".
Definition disk : @World Sample.files :=
  ({[ beside := "secret" ]} : gmap string string).

End Scenario.

(** * Properties *)

Import ConversationManager ToolExecutor Main Proxy Reference.

#[local] Arguments Nat.div : simpl never.

(** ** The partition into sequences *)

Section Partition.
Context `{Json}.

Lemma identify_loop_concat messages : forall sequences current b,
  concat (identify_loop messages sequences current b)
  = concat sequences ++ current ++ messages.
Proof.
  induction messages as [|msg messages IH]; intros sequences current b; simpl.
  - destruct current; rewrite ?concat_app; simpl; rewrite ?app_nil_r; reflexivity.
  - repeat case_match; rewrite IH, ?concat_app; simpl;
      rewrite ?app_nil_r, <- ?app_assoc; reflexivity.
Qed.

Lemma identify_loop_nonempty messages : forall sequences current b,
  (b = true -> current <> []) ->
  Forall (fun s => s <> []) sequences ->
  Forall (fun s => s <> []) (identify_loop messages sequences current b).
Proof.
  induction messages as [|msg messages IH]; intros sequences current b Hb Hs; simpl.
  - destruct current; [assumption|].
    apply Forall_app; split; [assumption|]. constructor; [discriminate|constructor].
  - repeat case_match; subst; apply IH; try (intros _; discriminate);
      try assumption;
      try (apply Forall_app; split; [assumption|]; constructor; [|constructor]);
      try discriminate.
    all: try (intros _; destruct current; discriminate).
    all: apply Hb; destruct b; [reflexivity | discriminate].
Qed.

(** The sequence under construction: when [in_tool_sequence] holds, an
    assistant message with its calls and the answers so far; otherwise at
    most one message. *)
Lemma identify_loop_shape messages : forall sequences current b,
  (if b : bool
   then exists call answers,
          current = call :: answers /\ bears_calls call
          /\ Forall (fun msg => get msg "role" (VStr "") = VStr "tool") answers
   else current = [] \/ exists msg, current = [msg]) ->
  Forall sequence_shape sequences ->
  Forall sequence_shape (identify_loop messages sequences current b).
Proof.
  assert (Hclose : forall sequences current (b : bool),
    (if b then exists call answers,
                 current = call :: answers /\ bears_calls call
                 /\ Forall (fun msg => get msg "role" (VStr "") = VStr "tool") answers
     else current = [] \/ exists msg, current = [msg]) ->
    current <> [] ->
    Forall sequence_shape sequences ->
    Forall sequence_shape (sequences ++ [current])).
  { intros sequences current b Hc Hne Hs. apply Forall_app. split; [exact Hs|].
    constructor; [|constructor]. destruct b.
    - right. exact Hc.
    - destruct Hc as [->|Hc]; [contradiction | left; exact Hc]. }
  induction messages as [|msg messages IH]; intros sequences current b Hc Hs; simpl.
  - destruct current as [|m current]; [exact Hs|].
    apply (Hclose _ _ b); [exact Hc | discriminate | exact Hs].
  - destruct (bool_decide (get msg "role" (VStr "") = VStr "assistant")
              && has msg "tool_calls" && truthy (get msg "tool_calls" VNone)) eqn:E1.
    + apply andb_prop in E1 as [E1 Et]. apply andb_prop in E1 as [Er Eh].
      apply bool_decide_eq_true_1 in Er.
      apply (IH _ [msg] true).
      * exists msg, []. split; [reflexivity|]. split; [|constructor].
        unfold bears_calls. auto.
      * destruct current as [|m current]; [exact Hs|].
        apply (Hclose _ _ b); [exact Hc | discriminate | exact Hs].
    + destruct (bool_decide (get msg "role" (VStr "") = VStr "tool") && b) eqn:E2.
      * apply andb_prop in E2 as [Er ->]. apply bool_decide_eq_true_1 in Er.
        apply (IH _ _ true); [|exact Hs].
        destruct Hc as (call & answers & -> & Hb & Ha).
        exists call, (answers ++ [msg]).
        split; [reflexivity|]. split; [exact Hb|].
        apply Forall_app. split; [exact Ha|]. constructor; [exact Er|constructor].
      * destruct (b && negb (bool_decide (get msg "role" (VStr "") = VStr "tool")))
          eqn:E3.
        -- apply andb_prop in E3 as [-> _].
           apply (IH _ [msg] false); [right; eauto|].
           destruct Hc as (call & answers & -> & Hb & Ha).
           apply (Hclose _ _ true); [eauto | discriminate | exact Hs].
        -- assert (b = false) as ->.
           { destruct b; [|reflexivity].
             destruct (bool_decide (get msg "role" (VStr "") = VStr "tool"));
               discriminate. }
           destruct current as [|m current].
           ++ apply (IH _ [msg] false); [right; eauto | exact Hs].
           ++ apply (IH _ [msg] false); [right; eauto|].
              apply (Hclose _ _ false); [exact Hc | discriminate | exact Hs].
Qed.

(** Every sequence is one message, or an assistant message that bears tool
    calls followed by tool-role messages. *)
Lemma identify_shape messages :
  Forall sequence_shape (_identify_tool_sequences messages).
Proof. apply identify_loop_shape; [left; reflexivity | constructor]. Qed.

Lemma identify_concat messages :
  concat (_identify_tool_sequences messages) = messages.
Proof. unfold _identify_tool_sequences. rewrite identify_loop_concat. reflexivity. Qed.

(** C9. For every message list, [_identify_tool_sequences] returns sequences
    none of which is empty and whose concatenation, in order, is the message
    list itself: every message is in exactly one sequence, at its original
    place, none is duplicated and none is dropped. *)
Theorem C9_sequences_partition (messages : list dict) :
  concat (_identify_tool_sequences messages) = messages
  /\ Forall (fun sequence => sequence <> []) (_identify_tool_sequences messages).
Proof.
  split; [apply identify_concat|].
  apply identify_loop_nonempty; [discriminate | constructor].
Qed.

End Partition.
(** ** The token estimator *)

Section Estimator.
Context `{Json}.

Lemma call_tokens_shift total call :
  call_tokens total call = (c <- call_tokens 0 call ;; Ok (total + c)).
Proof.
  unfold call_tokens.
  destruct (py_contains "function" call) as [[|]|e]; simpl; [|f_equal; lia|reflexivity].
  destruct (py_getitem call "function") as [fn|e]; simpl; [|reflexivity].
  destruct (py_get fn "name" (VStr "")) as [name|e]; simpl; [|reflexivity].
  destruct (py_len name) as [n|e]; simpl; [|reflexivity].
  destruct (py_get fn "arguments" (VStr "{}")) as [args|e]; simpl; [|reflexivity].
  destruct args; simpl; f_equal; lia.
Qed.

Lemma calls_tokens_shift calls : forall total,
  calls_tokens total calls = (c <- calls_tokens 0 calls ;; Ok (total + c)).
Proof.
  induction calls as [|call calls IH]; intros total; simpl.
  - f_equal; lia.
  - rewrite call_tokens_shift.
    destruct (call_tokens 0 call) as [c|e]; simpl; [|reflexivity].
    rewrite IH, (IH c).
    destruct (calls_tokens 0 calls) as [d|e]; simpl; [f_equal; lia|reflexivity].
Qed.

Lemma msg_tokens_shift total msg :
  msg_tokens total msg = (c <- msg_tokens 0 msg ;; Ok (total + c)).
Proof.
  unfold msg_tokens.
  destruct (has msg "tool_calls" && truthy (get msg "tool_calls" VNone)); simpl.
  - destruct (py_len (get msg "tool_calls" VNone)) as [n|e]; simpl; [|reflexivity].
    destruct (py_iter (get msg "tool_calls" VNone)) as [calls|e]; simpl; [|reflexivity].
    rewrite calls_tokens_shift. symmetry. rewrite calls_tokens_shift. symmetry.
    destruct (calls_tokens 0 calls) as [d|e]; simpl; [|reflexivity].
    repeat case_match; simpl; f_equal; lia.
  - repeat case_match; simpl; f_equal; lia.
Qed.

Lemma msg_tokens_overhead total msg c :
  msg_tokens total msg = Ok c -> total + 4 <= c.
Proof.
  unfold msg_tokens.
  destruct (has msg "tool_calls" && truthy (get msg "tool_calls" VNone)); simpl.
  - destruct (py_len (get msg "tool_calls" VNone)) as [n|e]; simpl; [|discriminate].
    destruct (py_iter (get msg "tool_calls" VNone)) as [calls|e]; simpl; [|discriminate].
    rewrite calls_tokens_shift.
    destruct (calls_tokens 0 calls) as [d|e]; simpl; [|discriminate].
    repeat case_match; intros [= <-]; lia.
  - repeat case_match; intros [= <-]; lia.
Qed.

Lemma estimate_loop_priced messages : forall total,
  Forall priced messages ->
  estimate_loop total messages = Ok (total + sum_list (tokens <$> messages)).
Proof.
  induction messages as [|msg messages IH]; intros total Hp; cbn.
  - f_equal; lia.
  - apply Forall_cons in Hp as [[c Hc] Hp].
    rewrite msg_tokens_shift. unfold tokens at 1. rewrite Hc. cbn.
    rewrite IH by assumption. f_equal; lia.
Qed.

Lemma estimate_priced messages :
  Forall priced messages ->
  _estimate_token_count messages = Ok (sum_list (tokens <$> messages)).
Proof. intros Hp. unfold _estimate_token_count. rewrite estimate_loop_priced; auto. Qed.

Lemma estimate_loop_Ok messages : forall total n,
  estimate_loop total messages = Ok n -> Forall priced messages.
Proof.
  induction messages as [|msg messages IH]; intros total n; simpl; [constructor|].
  rewrite msg_tokens_shift.
  destruct (msg_tokens 0 msg) as [c|e] eqn:E; simpl; [|discriminate].
  intros Hn. constructor; [exists c; exact E | eapply IH; exact Hn].
Qed.

Lemma estimate_Ok messages n :
  _estimate_token_count messages = Ok n -> Forall priced messages.
Proof. apply estimate_loop_Ok. Qed.

Lemma tokens_overhead msg : priced msg -> 4 <= tokens msg.
Proof.
  intros [c Hc]. unfold tokens. rewrite Hc.
  apply msg_tokens_overhead in Hc. lia.
Qed.

(** The code on a well-formed call. *)
Lemma call_tokens_well_formed call :
  well_formed_call call ->
  call_tokens 0 call
  = Ok (String.length (name_of call) / 4
        + String.length (serialized_arguments call) / 4).
Proof.
  destruct call as [| | | | |c]; simpl; try contradiction.
  unfold call_tokens, name_of, serialized_arguments, function_of, py_contains,
    has, py_getitem, item, get.
  destruct (lookup c "function") as [[| | | | |fn]|] eqn:Ec; simpl;
    try contradiction; [|reflexivity].
  unfold get.
  destruct (lookup fn "name") as [[| | |name| |]|]; simpl; intros [Hn Ha];
    try contradiction;
    destruct (lookup fn "arguments") as [[| | |args| |args]|]; simpl in *;
    try contradiction; reflexivity.
Qed.

Lemma calls_tokens_well_formed calls :
  Forall well_formed_call calls ->
  calls_tokens 0 calls
  = Ok (sum_list ((fun call => String.length (name_of call) / 4
                     + String.length (serialized_arguments call) / 4) <$> calls)).
Proof.
  induction 1 as [|call calls Hc _ IH]; cbn; [reflexivity|].
  rewrite (call_tokens_well_formed _ Hc). cbn.
  rewrite calls_tokens_shift, IH. reflexivity.
Qed.

Lemma reference_calls_sum calls :
  sum_list (reference_call_tokens <$> calls)
  = length calls * 5
    + sum_list ((fun call => String.length (name_of call) / 4
                   + String.length (serialized_arguments call) / 4) <$> calls).
Proof.
  induction calls as [|call calls IH]; [reflexivity|].
  rewrite !fmap_cons. simpl sum_list. simpl length.
  rewrite IH. unfold reference_call_tokens. lia.
Qed.

Lemma tool_calls_tokens_well_formed msg total :
  well_formed_message msg ->
  (if has msg "tool_calls" && truthy (get msg "tool_calls" VNone) then
     let tool_calls := get msg "tool_calls" VNone in
     n <- py_len tool_calls ;;
     let total := total + n * 5 in
     calls <- py_iter tool_calls ;;
     calls_tokens total calls
   else Ok total)
  = Ok (total + sum_list (reference_call_tokens <$> calls_of msg)).
Proof.
  unfold well_formed_message, calls_of, has, get.
  destruct (lookup msg "tool_calls") as [[| | | |calls|]|];
    simpl; intros Hw; try rewrite Hw; simpl; try (f_equal; lia).
  destruct calls as [|call calls]; [simpl; f_equal; lia|].
  cbv beta iota. unfold bind, negb.
  rewrite calls_tokens_shift, (calls_tokens_well_formed _ Hw). unfold bind.
  rewrite reference_calls_sum. f_equal. lia.
Qed.

Lemma msg_tokens_well_formed msg :
  well_formed_message msg ->
  msg_tokens 0 msg = Ok (reference_msg_tokens msg + tool_response_tokens msg).
Proof.
  intros Hw. unfold msg_tokens. cbv zeta.
  rewrite (tool_calls_tokens_well_formed _ _ Hw). unfold bind.
  unfold reference_msg_tokens, tool_response_tokens, has, get, text_tokens.
  destruct (lookup msg "content") as [[| | |[|a content]| |]|];
    destruct (bool_decide (_ = VStr "tool")); simpl; f_equal; try lia;
    case_match; lia.
Qed.

(** C2, amended.  On every list of well-formed messages
    [_estimate_token_count] returns the sum over the messages of 4 overhead
    tokens, [len(content) / 4] for a text content, and per tool call 5
    overhead tokens plus [len(name)/4] plus [len(serialized arguments)/4] --
    and, for a message of role [tool], [len(content) / 4] a second time. *)
Theorem C2_estimator_amended (messages : list dict) :
  Forall well_formed_message messages ->
  _estimate_token_count messages = Ok (amended_token_count messages).
Proof.
  intros Hw.
  assert (Hp : Forall priced messages).
  { eapply Forall_impl; [exact Hw|]. intros msg Hm.
    eexists. apply msg_tokens_well_formed, Hm. }
  rewrite (estimate_priced _ Hp). f_equal. unfold amended_token_count.
  f_equal. apply Forall_fmap_ext. eapply Forall_impl; [exact Hw|].
  intros msg Hm. simpl. unfold tokens. rewrite (msg_tokens_well_formed _ Hm).
  reflexivity.
Qed.

End Estimator.
(** ** The budgeter *)

Section Budgeter.
Context `{Json}.

(** *** The stable sort *)

Lemma insert_by_Permutation key x l : insert_by key x l ≡ₚ x :: l.
Proof.
  induction l as [|y l IH]; simpl; [reflexivity|].
  destruct (key x <=? key y); [reflexivity|].
  rewrite IH. apply Permutation_swap.
Qed.

Lemma sorted_Permutation l key : sorted l key ≡ₚ l.
Proof.
  induction l as [|x l IH]; simpl; [reflexivity|].
  rewrite insert_by_Permutation, IH. reflexivity.
Qed.

Lemma insert_by_sorted key x l :
  StronglySorted (key_le key) l -> StronglySorted (key_le key) (insert_by key x l).
Proof.
  induction 1 as [|y l Hl IH Hy]; simpl.
  - repeat constructor.
  - destruct (key x <=? key y) eqn:E.
    + apply Nat.leb_le in E. constructor; [constructor; assumption|].
      constructor; [exact E|].
      eapply Forall_impl; [exact Hy|]. unfold key_le. intros; lia.
    + apply Nat.leb_gt in E. constructor; [exact IH|].
      rewrite insert_by_Permutation. constructor; [unfold key_le; lia | exact Hy].
Qed.

Lemma sorted_StronglySorted l key : StronglySorted (key_le key) (sorted l key).
Proof.
  induction l as [|x l IH]; simpl; [constructor | apply insert_by_sorted, IH].
Qed.

(** An element with the least key goes to the front. *)
Lemma insert_by_front key x l : key x = 0 -> insert_by key x l = x :: l.
Proof. intros E. destruct l as [|y l]; simpl; [reflexivity|]. rewrite E. reflexivity. Qed.

(** *** Positions in a list without two equal messages *)

Lemma py_eq_refl (v : value) : py_eq v v = true.
Proof. apply bool_decide_eq_true_2. reflexivity. Qed.

Lemma py_eq_sym (a b : value) : py_eq a b = py_eq b a.
Proof. unfold py_eq. apply bool_decide_ext. split; intros E; symmetry; exact E. Qed.

Lemma no_two_equal_cons (y : dict) (messages : list dict) :
  no_two_equal (y :: messages) ->
  no_two_equal messages
  /\ (forall x, x ∈ messages -> py_eq (VDict y) (VDict x) = false).
Proof.
  intros Hd. split.
  - intros i j x z Hi Hj E.
    assert (S i = S j) by (apply (Hd (S i) (S j) x z); auto). lia.
  - intros x Hx. apply list_elem_of_lookup_1 in Hx as [j Hj].
    destruct (py_eq (VDict y) (VDict x)) eqn:E; [|reflexivity].
    assert (0 = S j) by (apply (Hd 0 (S j) y x); auto). discriminate.
Qed.


Lemma no_two_equal_normal (messages : list dict) :
  NoDup ((fun x => normal (VDict x)) <$> messages) -> no_two_equal messages.
Proof.
  intros Hnd i j x y Hi Hj E. apply bool_decide_eq_true_1 in E.
  apply (NoDup_lookup _ i j (normal (VDict x)) Hnd).
  - apply list_lookup_fmap_Some. exists x. auto.
  - apply list_lookup_fmap_Some. exists y. auto.
Qed.

Lemma index_lookup (messages : list dict) : forall i x,
  no_two_equal messages -> messages !! i = Some x -> index x messages = Some i.
Proof.
  induction messages as [|y messages IH]; intros i x Hd Hi; [discriminate|].
  apply no_two_equal_cons in Hd as [Hd Hy]. simpl.
  destruct i as [|i]; simpl in Hi.
  - injection Hi as ->. rewrite py_eq_refl. reflexivity.
  - rewrite (Hy x) by (eapply list_elem_of_lookup_2, Hi).
    rewrite (IH i x Hd Hi). reflexivity.
Qed.

Lemma contains_member (messages : list dict) x :
  x ∈ messages -> contains messages x = true.
Proof.
  intros Hx. unfold contains. apply existsb_exists. exists x.
  split; [apply list_elem_of_In, Hx | apply py_eq_refl].
Qed.

Lemma contains_none (messages : list dict) x :
  (forall y, y ∈ messages -> py_eq (VDict x) (VDict y) = false) ->
  contains messages x = false.
Proof.
  intros Hn. destruct (contains messages x) eqn:E; [|reflexivity].
  apply existsb_exists in E as (y & Hy & E). apply list_elem_of_In in Hy.
  rewrite py_eq_sym, (Hn y Hy) in E. discriminate E.
Qed.

Lemma original_position_lookup (messages : list dict) i x :
  no_two_equal messages -> messages !! i = Some x ->
  original_position messages x = i.
Proof.
  intros Hd Hi. unfold original_position.
  rewrite contains_member by (eapply list_elem_of_lookup_2, Hi).
  rewrite (index_lookup _ _ _ Hd Hi). reflexivity.
Qed.

Lemma original_position_absent (messages : list dict) x :
  contains messages x = false -> original_position messages x = 0.
Proof. intros Hx. unfold original_position. rewrite Hx. reflexivity. Qed.

Lemma sublist_increasing (f : dict -> nat) (kept messages : list dict) :
  kept `sublist_of` messages ->
  (forall i j x y, messages !! i = Some x -> messages !! j = Some y ->
                   i < j -> f x < f y) ->
  StronglySorted (fun x y => f x < f y) kept.
Proof.
  induction 1 as [|x kept messages Hs IH|x kept messages Hs IH]; intros Hinc.
  - constructor.
  - constructor.
    + apply IH. intros i j a b Hi Hj Hij. apply (Hinc (S i) (S j)); simpl; auto; lia.
    + apply Forall_forall. intros y Hy.
      apply (sublist_subseteq _ _ Hs) in Hy.
      apply list_elem_of_lookup_1 in Hy as [j Hj].
      apply (Hinc 0 (S j)); simpl; auto; lia.
  - apply IH. intros i j a b Hi Hj Hij. apply (Hinc (S i) (S j)); simpl; auto; lia.
Qed.

(** Sorting a rearrangement of a sublist of [messages], no two of whose
    elements are equal, by original position gives the sublist back. *)
Lemma sorted_sublist (messages kept shuffled : list dict) :
  no_two_equal messages ->
  kept `sublist_of` messages ->
  shuffled ≡ₚ kept ->
  sorted shuffled (original_position messages) = kept.
Proof.
  intros Hnd Hsub Hperm.
  assert (Hinc : StronglySorted
            (fun x y => original_position messages x < original_position messages y) kept).
  { apply (sublist_increasing _ _ messages Hsub).
    intros i j x y Hi Hj Hij.
    rewrite (original_position_lookup _ _ _ Hnd Hi), (original_position_lookup _ _ _ Hnd Hj).
    exact Hij. }
  apply (StronglySorted_unique_strong (key_le (original_position messages))).
  - intros x1 x2 H1 H2 L1 L2. unfold key_le in *.
    assert (Hx1 : x1 ∈ messages).
    { apply (sublist_subseteq _ _ Hsub). rewrite <- Hperm, <- (sorted_Permutation shuffled). exact H1. }
    assert (Hx2 : x2 ∈ messages) by (apply (sublist_subseteq _ _ Hsub), H2).
    apply list_elem_of_lookup_1 in Hx1 as [i Hi], Hx2 as [j Hj].
    rewrite (original_position_lookup _ _ _ Hnd Hi) in *.
    rewrite (original_position_lookup _ _ _ Hnd Hj) in *.
    assert (i = j) by lia. subst j. congruence.
  - apply sorted_StronglySorted.
  - clear -Hinc. induction Hinc as [|x l Hl IH Hx]; constructor; [assumption|].
    eapply Forall_impl; [exact Hx|]. unfold key_le. intros; simpl in *; lia.
  - rewrite sorted_Permutation. exact Hperm.
Qed.

End Budgeter.
(** ** The two strategies of the budgeter *)

Section Window.
Context `{Json}.

Lemma estimate_one msg :
  priced msg -> _estimate_token_count [msg] = Ok (tokens msg).
Proof.
  intros Hp. rewrite estimate_priced by (constructor; [exact Hp|constructor]).
  simpl. f_equal. lia.
Qed.

(** The low-budget loop keeps the messages it visits, in their order, up to
    the first that does not fit. *)
Lemma tail_fill_kept reversed : forall remaining acc,
  Forall priced reversed ->
  exists k, tail_fill_loop reversed remaining acc
            = Ok (reverse (take k reversed) ++ acc).
Proof.
  induction reversed as [|msg reversed IH]; intros remaining acc Hp; simpl.
  - exists 0. reflexivity.
  - apply Forall_cons in Hp as [Hm Hp].
    rewrite (estimate_one _ Hm). simpl.
    destruct (Z.of_nat (tokens msg) <=? remaining)%Z.
    + destruct (IH (remaining - Z.of_nat (tokens msg))%Z (msg :: acc) Hp) as [k Hk].
      exists (S k). rewrite Hk. simpl. rewrite reverse_cons, <- app_assoc. reflexivity.
    + exists 0. reflexivity.
Qed.

(** With less than the overhead of one message left it keeps nothing. *)
Lemma tail_fill_nothing reversed remaining acc :
  (remaining < 4)%Z -> Forall priced reversed ->
  tail_fill_loop reversed remaining acc = Ok acc.
Proof.
  intros Hr Hp. destruct reversed as [|msg reversed]; simpl; [reflexivity|].
  apply Forall_cons in Hp as [Hm Hp].
  rewrite (estimate_one _ Hm). simpl.
  pose proof (tokens_overhead _ Hm).
  destruct (Z.leb_spec (Z.of_nat (tokens msg)) remaining); [lia | reflexivity].
Qed.

(** The sliding window keeps of every sequence all, the last message or
    nothing. *)
Lemma pack_loop_picks reversed : forall remaining result,
  Forall (Forall priced) reversed ->
  exists kept, pack_loop reversed remaining result = Ok (result ++ concat kept)
               /\ Forall2 pick reversed kept.
Proof.
  induction reversed as [|sequence reversed IH]; intros remaining result Hp; simpl.
  - exists []. simpl. rewrite app_nil_r. split; [reflexivity|constructor].
  - apply Forall_cons in Hp as [Hs Hp].
    rewrite (estimate_priced _ Hs). simpl.
    destruct (Z.leb_spec (Z.of_nat (sum_list (tokens <$> sequence))) remaining)
      as [_|Hover].
    + destruct (IH (remaining - Z.of_nat (sum_list (tokens <$> sequence)))%Z
                  (result ++ sequence) Hp) as (kept & E & F).
      exists (sequence :: kept). simpl. rewrite E, <- app_assoc.
      split; [reflexivity|]. constructor; [apply pick_whole|exact F].
    + destruct (last sequence) as [last_msg|] eqn:El.
      * assert (Hl : priced last_msg).
        { eapply Forall_forall; [exact Hs|]. eapply last_Some_elem_of, El. }
        destruct (0 <? remaining)%Z.
        -- rewrite (estimate_one _ Hl). simpl.
           destruct (Z.leb_spec (Z.of_nat (tokens last_msg)) remaining) as [Hfit|_].
           ++ destruct (IH remaining (result ++ [last_msg]) Hp) as (kept & E & F).
              exists ([last_msg] :: kept). simpl. rewrite E, <- app_assoc.
              split; [reflexivity|]. constructor; [|exact F].
              apply pick_last; [exact El|]. intros ->.
              simpl in Hover. lia.
           ++ destruct (IH remaining result Hp) as (kept & E & F).
              exists ([] :: kept). simpl.
              split; [exact E|]. constructor; [apply pick_nothing|exact F].
        -- destruct (IH remaining result Hp) as (kept & E & F).
           exists ([] :: kept). simpl.
           split; [exact E|]. constructor; [apply pick_nothing|exact F].
      * destruct (IH remaining result Hp) as (kept & E & F).
        exists ([] :: kept). simpl.
        split; [exact E|]. constructor; [apply pick_nothing|exact F].
Qed.

Lemma pick_sublist sequence kept : pick sequence kept -> kept `sublist_of` sequence.
Proof.
  destruct 1 as [s|s m Hl _|s].
  - reflexivity.
  - apply last_Some in Hl as [s' ->]. apply sublist_inserts_l. reflexivity.
  - apply sublist_nil_l.
Qed.

Lemma picks_sublist sequences kept :
  Forall2 pick sequences kept -> concat kept `sublist_of` concat sequences.
Proof.
  induction 1 as [|s k sequences kept Hp _ IH]; simpl; [constructor|].
  apply sublist_app; [apply pick_sublist, Hp | exact IH].
Qed.



Lemma concat_reverse_Permutation (ls : list (list dict)) :
  concat (reverse ls) ≡ₚ concat ls.
Proof.
  induction ls as [|l ls IH]; simpl; [reflexivity|].
  rewrite reverse_cons, concat_app. simpl. rewrite app_nil_r, IH.
  apply Permutation_app_comm.
Qed.

Lemma reserve_system_eq messages result rest :
  reserve_system messages = (result, rest) -> messages = result ++ rest.
Proof.
  unfold reserve_system. destruct messages as [|first messages].
  - intros [= <- <-]. reflexivity.
  - case_bool_decide; intros [= <- <-]; reflexivity.
Qed.

Lemma reserve_system_result messages result rest :
  reserve_system messages = (result, rest) ->
  result = [] \/ exists first, result = [first].
Proof.
  unfold reserve_system. destruct messages as [|first messages].
  - intros [= <- <-]. left; reflexivity.
  - case_bool_decide; intros [= <- <-]; eauto.
Qed.

(** The window on the sequences of [rest], most recent first. *)
Lemma window_kept rest remaining result :
  Forall priced rest ->
  exists kept,
    Forall2 pick (_identify_tool_sequences rest) kept
    /\ pack_loop (reverse (_identify_tool_sequences rest)) remaining result
       = Ok (result ++ concat (reverse kept)).
Proof.
  intros Hp.
  assert (Hpseq : Forall (Forall priced) (reverse (_identify_tool_sequences rest))).
  { apply Forall_reverse, Forall_concat. rewrite identify_concat. exact Hp. }
  destruct (pack_loop_picks _ remaining result Hpseq) as (shuffled & Hpack & Hpick).
  apply Forall2_reverse in Hpick. rewrite reverse_involutive in Hpick.
  exists (reverse shuffled). rewrite reverse_involutive. auto.
Qed.

(** Sorting what the window has gathered, when no two messages of the
    conversation are equal. *)
Lemma sorted_window messages result rest shuffled kept :
  no_two_equal messages ->
  reserve_system messages = (result, rest) ->
  kept `sublist_of` rest ->
  shuffled ≡ₚ kept ->
  sorted (result ++ shuffled) (original_position rest) = result ++ kept.
Proof.
  intros Hnd Hr Hsub Hperm.
  pose proof (reserve_system_eq _ _ _ Hr) as ->.
  destruct (reserve_system_result _ _ _ Hr) as [->|[first ->]]; simpl.
  - apply sorted_sublist; assumption.
  - apply no_two_equal_cons in Hnd as [Hnd Hfirst].
    rewrite (sorted_sublist rest kept shuffled) by assumption.
    apply insert_by_front, original_position_absent, contains_none, Hfirst.
Qed.


(** C5, amended.  A conversation whose leading system message alone exceeds
    the budget is cut down to that system message: the tail-fill runs on
    what remains of the budget once the system message is reserved, which is
    negative, and keeps no other message.  The output is not empty.  An
    empty conversation gives an empty output. *)
Theorem C5_system_message_over_budget :
  (forall max_tokens, manage_context_window [] max_tokens = Ok [])
  /\ (forall (first : dict) (rest : list dict) (max_tokens : Z)
        (estimated_tokens system_tokens : nat),
        get first "role" VNone = VStr "system" ->
        _estimate_token_count (first :: rest) = Ok estimated_tokens ->
        _estimate_token_count [first] = Ok system_tokens ->
        (max_tokens < Z.of_nat system_tokens)%Z ->
        manage_context_window (first :: rest) max_tokens = Ok [first]).
Proof.
  split; [reflexivity|].
  intros first rest max_tokens estimated_tokens system_tokens Hrole Hest Hsys Hover.
  pose proof (estimate_Ok _ _ Hest) as Hp.
  pose proof Hp as Hp'. apply Forall_cons in Hp' as [Hf Hr].
  rewrite (estimate_one _ Hf) in Hsys. injection Hsys as <-.
  rewrite (estimate_priced _ Hp) in Hest. injection Hest as <-.
  unfold manage_context_window. rewrite (estimate_priced _ Hp). cbn [bind].
  rewrite fmap_cons. simpl sum_list.
  destruct (Z.leb_spec (Z.of_nat (tokens first + sum_list (tokens <$> rest))) max_tokens);
    [lia|].
  unfold reserve_system. rewrite Hrole, bool_decide_eq_true_2 by reflexivity.
  rewrite (estimate_one _ Hf). cbn [bind].
  destruct (Z.ltb_spec (max_tokens - Z.of_nat (tokens first)) 1000); [|lia].
  rewrite tail_fill_nothing; [reflexivity | lia | apply Forall_reverse, Hr].
Qed.

(** *** Conversations without two equal messages

    The sort key is the position of the first equal message; when no two
    messages are equal it is the position of the message itself, and the
    output is in conversation order with the system message first. *)

Lemma tail_fill_sublist rest remaining last_messages :
  tail_fill_loop (reverse rest) remaining [] = Ok last_messages ->
  Forall priced rest ->
  last_messages `sublist_of` rest.
Proof.
  intros E Hp.
  destruct (tail_fill_kept (reverse rest) remaining [])
    as [k Hk]; [apply Forall_reverse, Hp|].
  rewrite Hk in E. injection E as <-. rewrite app_nil_r.
  rewrite <- (reverse_involutive rest) at 2.
  rewrite <- (take_drop k (reverse rest)) at 2.
  rewrite reverse_app. apply sublist_inserts_l. reflexivity.
Qed.

Lemma order_preserved_when_distinct messages max_tokens output :
  no_two_equal messages ->
  manage_context_window messages max_tokens = Ok output ->
  output `sublist_of` messages.
Proof.
  intros Hnd. unfold manage_context_window.
  destruct messages as [|first messages']; [intros [= <-]; reflexivity|].
  destruct (_estimate_token_count (first :: messages')) as [n|e] eqn:Hest;
    cbn [bind]; [|discriminate].
  destruct (_ <=? max_tokens)%Z; [intros [= <-]; reflexivity|].
  destruct (reserve_system (first :: messages')) as [result rest] eqn:Hres.
  pose proof (estimate_Ok _ _ Hest) as Hp.
  pose proof (reserve_system_eq _ _ _ Hres) as Hm.
  rewrite Hm in Hp. apply Forall_app in Hp as [Hpres Hprest].
  rewrite (estimate_priced _ Hpres). cbn [bind].
  destruct (_ <? 1000)%Z.
  - destruct (tail_fill_loop _ _ _) as [last_messages|e] eqn:Hfill; cbn [bind];
      [|discriminate].
    intros [= <-]. rewrite Hm. apply sublist_app; [reflexivity|].
    eapply tail_fill_sublist; eassumption.
  - destruct (window_kept rest
                (max_tokens - Z.of_nat (sum_list (tokens <$> result)))%Z result Hprest)
      as (kept & Hpick & Hpack).
    rewrite Hpack. cbn [bind]. intros [= <-].
    assert (Hsub : concat kept `sublist_of` rest).
    { rewrite <- (identify_concat rest). apply picks_sublist, Hpick. }
    rewrite (sorted_window _ _ _ _ (concat kept) Hnd Hres Hsub)
      by apply concat_reverse_Permutation.
    rewrite Hm. apply sublist_app; [reflexivity | exact Hsub].
Qed.

Lemma system_first_when_distinct first rest max_tokens output :
  no_two_equal (first :: rest) ->
  get first "role" VNone = VStr "system" ->
  manage_context_window (first :: rest) max_tokens = Ok output ->
  exists later, output = first :: later.
Proof.
  intros Hnd Hrole. unfold manage_context_window.
  destruct (_estimate_token_count (first :: rest)) as [n|e] eqn:Hest;
    cbn [bind]; [|discriminate].
  destruct (_ <=? max_tokens)%Z; [intros [= <-]; eauto|].
  assert (Hres : reserve_system (first :: rest) = ([first], rest)).
  { unfold reserve_system. rewrite Hrole, bool_decide_eq_true_2; reflexivity. }
  rewrite Hres.
  pose proof (estimate_Ok _ _ Hest) as Hp. apply Forall_cons in Hp as [Hf Hprest].
  rewrite (estimate_one _ Hf). cbn [bind].
  destruct (_ <? 1000)%Z.
  - destruct (tail_fill_loop _ _ _) as [last_messages|e]; cbn [bind]; [|discriminate].
    intros [= <-]. eauto.
  - destruct (window_kept rest (max_tokens - Z.of_nat (tokens first))%Z [first] Hprest)
      as (kept & Hpick & Hpack).
    rewrite Hpack. cbn [bind]. intros [= <-].
    assert (Hsub : concat kept `sublist_of` rest).
    { rewrite <- (identify_concat rest). apply picks_sublist, Hpick. }
    exists (concat kept).
    exact (sorted_window _ _ _ _ (concat kept) Hnd Hres Hsub
             (concat_reverse_Permutation kept)).
Qed.

End Window.
(** ** The path guard and the file tools *)



Section Guard.
Context `{System}.
Variable workspace : string.

(** C10.  For every [filepath], [_resolve_path] either returns the resolved
    path, whose text starts with the text of the resolved workspace
    directory, or raises [ValueError]; and when the resolved path fails that
    prefix test the file tools [read_file], [edit_existing_file],
    [create_new_file] and [list_directory] return the structured error, read
    nothing and leave the file system as it is -- also when they are reached
    through [execute_tool]. *)
Theorem C10_path_traversal_guard (filepath : string) (w : World) :
  let path := resolve w (joinpath workspace filepath) in
  let refusal := error_result ("Path traversal detected: " +:+ filepath) in
  (_resolve_path workspace filepath w = Ok path
     /\ String.prefix (resolve w workspace) path = true
   \/ _resolve_path workspace filepath w
        = Raise (Exc ValueError ("Path traversal detected: " +:+ filepath))
     /\ String.prefix (resolve w workspace) path = false)
  /\ (String.prefix (resolve w workspace) path = false ->
      read_file workspace (VStr filepath) w = (refusal, w)
      /\ (forall changes,
            edit_existing_file workspace (VStr filepath) changes w = (refusal, w))
      /\ (forall contents,
            create_new_file workspace (VStr filepath) contents w = (refusal, w))
      /\ (forall recursive,
            list_directory workspace (VStr filepath) recursive w = (refusal, w))
      /\ execute_tool workspace (VStr "builtin_read_file")
           (VDict [("filepath", VStr filepath)]) w = (Ok refusal, w)
      /\ (forall changes,
            execute_tool workspace (VStr "builtin_edit_existing_file")
              (VDict [("filepath", VStr filepath); ("changes", changes)]) w
            = (Ok refusal, w))
      /\ (forall contents,
            execute_tool workspace (VStr "builtin_create_new_file")
              (VDict [("filepath", VStr filepath); ("contents", contents)]) w
            = (Ok refusal, w))
      /\ execute_tool workspace (VStr "builtin_ls")
           (VDict [("dirPath", VStr filepath)]) w = (Ok refusal, w)).
Proof.
  intros path refusal. subst path refusal. split.
  - unfold _resolve_path.
    destruct (String.prefix _ _) eqn:E; simpl; [left | right]; auto.
  - intros E.
    assert (R : read_file workspace (VStr filepath) w
                = (error_result ("Path traversal detected: " +:+ filepath), w)).
    { unfold read_file, _resolve_path. simpl. rewrite E. reflexivity. }
    assert (Ed : forall changes,
               edit_existing_file workspace (VStr filepath) changes w
               = (error_result ("Path traversal detected: " +:+ filepath), w)).
    { intros. unfold edit_existing_file, _resolve_path. simpl. rewrite E. reflexivity. }
    assert (C : forall contents,
               create_new_file workspace (VStr filepath) contents w
               = (error_result ("Path traversal detected: " +:+ filepath), w)).
    { intros. unfold create_new_file, _resolve_path. simpl. rewrite E. reflexivity. }
    assert (L : forall recursive,
               list_directory workspace (VStr filepath) recursive w
               = (error_result ("Path traversal detected: " +:+ filepath), w)).
    { intros. unfold list_directory, _resolve_path. simpl. rewrite E. reflexivity. }
    repeat split; try assumption; intros; unfold execute_tool; cbn -[read_file
      edit_existing_file create_new_file list_directory];
      unfold call_read_file, call_edit_existing_file, call_create_new_file,
        call_list_directory; cbn -[read_file edit_existing_file create_new_file
        list_directory]; rewrite ?R, ?Ed, ?C, ?L; reflexivity.
Qed.

End Guard.

(** ** The orchestration of tool calls *)



Section Orchestration.
Context `{Json} `{System} `{Storage}.
Variable workspace : string.

Lemma execute_tool_returns (name arguments : value) w :
  hashable name ->
  exists tool_result w',
    execute_tool workspace name arguments w = (Ok tool_result, w')
    /\ (~ registered workspace name ->
        tool_result = error_result ("Unknown tool: " +:+ py_str name) /\ w' = w).
Proof.
  intros Hh. unfold execute_tool.
  destruct name as [| | |name| |]; try contradiction;
    try (eexists _, w; split; [reflexivity | auto]).
  destruct (handlers_get (handlers workspace) name) as [handler|] eqn:E.
  - destruct (handler arguments w) as [[result|e] w'] eqn:Er;
      eexists _, w'; (split; [reflexivity|]);
      intros N; exfalso; apply N; exists name; rewrite E; eauto.
  - eexists _, w. split; [reflexivity|]. auto.
Qed.

Lemma execute_tool_unhashable (name arguments : value) w :
  ~ hashable name ->
  exists text,
    execute_tool workspace name arguments w = (Raise (Exc TypeError text), w).
Proof.
  intros Hn. unfold execute_tool.
  destruct name; try (exfalso; apply Hn; exact I); eexists; reflexivity.
Qed.

#[local] Arguments execute_tool : simpl never.

Lemma tool_loop_returns tool_calls : forall new_messages st,
  Forall well_formed_tool_call tool_calls ->
  exists tool_messages st',
    tool_loop workspace tool_calls new_messages st
    = (Ok (new_messages ++ tool_messages), st')
    /\ Forall2 (answers workspace) tool_calls tool_messages
    /\ store st' = store st
    /\ tool_executions st' = tool_executions st + length tool_calls.
Proof.
  induction tool_calls as [|call tool_calls IH]; intros new_messages st Hw.
  - exists [], st. simpl. rewrite app_nil_r. repeat split; [constructor | lia].
  - apply Forall_cons in Hw as [(name & (id & fn & text & arguments
                                   & Hid & Hfn & Hname & Hargs & Hloads) & Hh) Hw].
    simpl. unfold item. rewrite Hfn. simpl. unfold item. rewrite Hname, Hargs.
    simpl. rewrite Hloads. simpl.
    destruct (execute_tool_returns name arguments (world st) Hh)
      as (tool_result & w' & Hexec & Hunknown).
    rewrite Hexec, Hid.
    destruct (IH (new_messages ++
                    [[("role", VStr "tool"); ("tool_call_id", id);
                      ("name", name);
                      ("content", VStr (dumps tool_result))]])
                 (State w' (store st) (S (tool_executions st))) Hw)
      as (tool_messages & st' & Hloop & Hans & Hstore & Hcount).
    eexists (_ :: tool_messages), st'. rewrite Hloop, <- app_assoc. simpl.
    split; [reflexivity|]. split; [|split; [exact Hstore | simpl in Hcount; lia]].
    constructor; [|exact Hans].
    exists tool_result. unfold called_name, get. rewrite Hid, Hfn, Hname.
    split; [reflexivity|]. intros N. apply Hunknown, N.
Qed.

(** The loop stops at the first call whose name cannot be looked up. *)
Lemma tool_loop_unhashable before : forall call after new_messages st,
  Forall well_formed_tool_call before ->
  unhashable_tool_call call ->
  exists text st',
    tool_loop workspace (before ++ call :: after) new_messages st
    = (Raise (Exc TypeError text), st')
    /\ store st' = store st
    /\ tool_executions st' = tool_executions st + length before + 1.
Proof.
  induction before as [|first before IH]; intros call after new_messages st Hw Hu.
  - destruct Hu as (name & (id & fn & text & arguments
                            & Hid & Hfn & Hname & Hargs & Hloads) & Hn).
    simpl. unfold item. rewrite Hfn. simpl. unfold item. rewrite Hname, Hargs.
    simpl. rewrite Hloads. simpl.
    destruct (execute_tool_unhashable name arguments (world st) Hn) as [msg ->].
    eexists msg, _. split; [reflexivity|]. simpl. split; [reflexivity | lia].
  - apply Forall_cons in Hw as [(name & (id & fn & text & arguments
                                   & Hid & Hfn & Hname & Hargs & Hloads) & Hh) Hw].
    simpl. unfold item. rewrite Hfn. simpl. unfold item. rewrite Hname, Hargs.
    simpl. rewrite Hloads. simpl.
    destruct (execute_tool_returns name arguments (world st) Hh)
      as (tool_result & w' & Hexec & _).
    rewrite Hexec, Hid.
    destruct (IH call after
                 (new_messages ++
                    [[("role", VStr "tool"); ("tool_call_id", id);
                      ("name", name);
                      ("content", VStr (dumps tool_result))]])
                 (State w' (store st) (S (tool_executions st))) Hw Hu)
      as (text' & st' & Hloop & Hstore & Hcount).
    exists text', st'. rewrite Hloop. split; [reflexivity|].
    split; [exact Hstore | simpl in Hcount; lia].
Qed.

(** The calls that [transform_tool_calls] hands to the orchestration have
    the shape that the orchestration reads: an identifier, the name as the
    backend sent it, and the arguments serialized. *)
Lemma transform_calls_shape calls : forall i translated,
  transform_calls_from i calls = Ok translated ->
  Forall (fun call => exists id name arguments,
            call = [ ("id", id);
                     ("type", VStr "function");
                     ("function", VDict [ ("name", name);
                                          ("arguments", VStr (dumps arguments)) ]) ])
         translated.
Proof.
  induction calls as [|call calls IH]; intros i translated; simpl.
  - intros [= <-]. constructor.
  - destruct (py_get call "id" _) as [id|e]; simpl; [|discriminate].
    destruct (py_getitem call "function") as [fn|e]; simpl; [|discriminate].
    destruct (py_getitem fn "name") as [name|e]; simpl; [|discriminate].
    destruct (py_getitem fn "arguments") as [arguments|e]; simpl; [|discriminate].
    destruct (transform_calls_from (S i) calls) as [rest|e] eqn:E; simpl;
      [|discriminate].
    intros [= <-]. constructor; [eauto | eapply IH, E].
Qed.

(** When [json.loads] reads back what [json.dumps] writes, every call that
    [transform_tool_calls] makes is readable; it is well formed when the
    name that the backend sent is not a list or a dictionary. *)
Lemma translated_calls_readable tool_calls translated :
  (forall v, loads (dumps v) = Some v) ->
  transform_tool_calls tool_calls = Ok translated ->
  Forall (fun call => readable_tool_call call (called_name call)) translated.
Proof.
  intros Hround Htr. unfold transform_tool_calls in Htr.
  destruct (py_iter tool_calls) as [calls|e]; simpl in Htr; [|discriminate].
  apply transform_calls_shape in Htr.
  eapply Forall_impl; [exact Htr|].
  intros call (id & name & arguments & ->).
  exists id. eexists. exists (dumps arguments), arguments.
  repeat split; try reflexivity. apply Hround.
Qed.

Lemma translated_calls_well_formed tool_calls translated :
  (forall v, loads (dumps v) = Some v) ->
  transform_tool_calls tool_calls = Ok translated ->
  Forall (fun call => hashable (called_name call)) translated ->
  Forall well_formed_tool_call translated.
Proof.
  intros Hround Htr Hnames.
  pose proof (translated_calls_readable _ _ Hround Htr) as Hr.
  apply Forall_forall. intros call Hin.
  rewrite Forall_forall in Hr, Hnames.
  exists (called_name call). split; [apply Hr, Hin | apply Hnames, Hin].
Qed.

(** C8, amended.  For every batch of tool calls that the orchestration can
    read (each with an identifier, a name and, for arguments, a text that
    [json.loads] reads, as [transform_tool_calls] makes them) and whose
    names are not lists or dictionaries, and for a session that the store
    can write, the orchestration returns: it appends one assistant message
    that carries the calls and, for each call in order, one tool message
    tagged with the identifier and the name of that call, and saves the
    whole log at the place of the session.  The content of the tool message
    for a call whose name is not registered is the structured error
    [Unknown tool].  This holds whatever the handlers do, whether they
    return a result, refuse their arguments or raise.  A call whose name is
    a list or a dictionary is not contained: at that call the orchestration
    raises [TypeError], the calls before it have been run and counted, the
    calls after it are not, and nothing is saved. *)
Theorem C8_tool_failures_are_contained
    (session_id : string) (messages tool_calls : list dict) (st : state) :
  (Forall well_formed_tool_call tool_calls ->
   forall key, place session_id = Ok key ->
   exists (tool_messages : list dict) (st' : state),
     let new_messages :=
       messages
       ++ [[ ("role", VStr "assistant");
             ("tool_calls", VList (map VDict tool_calls)) ]]
       ++ tool_messages in
     handle_tool_calls workspace session_id messages tool_calls st
     = (Ok new_messages, st')
     /\ Forall2 (answers workspace) tool_calls tool_messages
     /\ store st' !! key = Some new_messages)
  /\ (forall (before : list dict) (call : dict) (after : list dict),
        tool_calls = before ++ call :: after ->
        Forall well_formed_tool_call before ->
        unhashable_tool_call call ->
        exists (text : string) (st' : state),
          handle_tool_calls workspace session_id messages tool_calls st
          = (Raise (Exc TypeError text), st')
          /\ store st' = store st
          /\ tool_executions st' = tool_executions st + length before + 1).
Proof.
  split.
  - intros Hw key Hkey. unfold handle_tool_calls.
    destruct (tool_loop_returns tool_calls
                (messages ++ [[ ("role", VStr "assistant");
                                ("tool_calls", VList (map VDict tool_calls)) ]])
                st Hw)
      as (tool_messages & st' & Hloop & Hans & _ & _).
    rewrite Hloop. unfold save_message. rewrite Hkey. cbn [bind].
    eexists tool_messages, _. simpl. rewrite <- app_assoc.
    split; [reflexivity|]. split; [exact Hans|].
    apply lookup_insert_eq.
  - intros before call after -> Hw Hu. unfold handle_tool_calls.
    destruct (tool_loop_unhashable before call after
                (messages ++ [[ ("role", VStr "assistant");
                                ("tool_calls",
                                 VList (map VDict (before ++ call :: after))) ]])
                st Hw Hu)
      as (text & st' & Hloop & Hstore & Hcount).
    rewrite Hloop. exists text, st'. auto.
Qed.

End Orchestration.
(** ** The translation of a complete response *)



Section Reply.
Context `{Json}.



#[local] Arguments transform_tool_calls : simpl never.


End Reply.
(** ** The translation of a stream *)

Section Stream.
Context `{Json}.

(** C6, amended.  On the three backend lines [{message:{content:"Hi"}}],
    [{message:{content:" there"}}], [{done:true}], the stream translator of
    [main.py] yields exactly four frames, in this order: the delta ["Hi"],
    the delta [" there"], the empty delta with [finish_reason = stop], and
    the [[DONE]] sentinel.  The translator of [proxy.py] yields the same
    frames (under its own identifier, time and model) after one more frame
    that comes first, the delta [{role: assistant}]. *)
Theorem C6_stream_framing (l1 l2 l3 : string) (model_name : value)
    (uuid4 : string) (now : Z) :
  is_blank l1 = false -> is_blank l2 = false -> is_blank l3 = false ->
  loads l1 = Some line_hi ->
  loads l2 = Some line_there ->
  loads l3 = Some line_done ->
  transform_ollama_stream [l1; l2; l3]
  = ([ sse (chunk_with (VStr "") (VInt 0) (VStr "") [("content", VStr "Hi")] VNone);
       sse (chunk_with (VStr "") (VInt 0) (VStr "") [("content", VStr " there")] VNone);
       sse (chunk_with (VStr "") (VInt 0) (VStr "") [] (VStr "stop"));
       done_frame ],
     None)
  /\ process_streaming_response [l1; l2; l3] model_name uuid4 now
     = (let chunk := chunk_with (VStr ("chatcmpl-" +:+ uuid4)) (VInt now) model_name in
        [ sse (chunk [("role", VStr "assistant")] VNone);
          sse (chunk [("content", VStr "Hi")] VNone);
          sse (chunk [("content", VStr " there")] VNone);
          sse (chunk [] (VStr "stop"));
          done_frame ],
        None).
Proof.
  intros B1 B2 B3 L1 L2 L3. split.
  - simpl. rewrite B1, B2, B3, L1, L2, L3. reflexivity.
  - unfold process_streaming_response. simpl.
    rewrite B1, B2, B3, L1, L2, L3. reflexivity.
Qed.

End Stream.
(** ** The properties on concrete conversations *)

Import Sample.

Section Examples.

#[local] Existing Instance Sample.json.
#[local] Existing Instance Sample.files.
#[local] Existing Instance Sample.redis.

(** *** Sequence atomicity (C1) *)



(** *** The estimator (C2) *)

(** C2 as stated fails.  A tool message with a content of eight characters:
    4 + 8/4 by the reference definition, two more in the code. *)
Lemma C2_counterexample :
  _estimate_token_count [message "tool" "12345678"] = Ok 8
  /\ reference_token_count [message "tool" "12345678"] = 6.
Proof. split; vm_compute; reflexivity. Qed.

Lemma C2_witness :
  Forall well_formed_message [asking; answer]
  /\ _estimate_token_count [asking; answer]
     = Ok (amended_token_count [asking; answer]).
Proof.
  assert (W : Forall well_formed_message [asking; answer]).
  { repeat constructor. }
  split; [exact W|].
  exact (C2_estimator_amended [asking; answer] W).
Defined.

(** *** Order preservation (C3) *)

(** C3, on a failing input.  The same user message before and after another
    one, then a message too long for the budget: the two equal messages get
    the same sort key and the message between them comes out after both, so
    that the output is not in the order of the conversation. *)
Theorem C3_order_lost_on_equal_messages :
  let a := message "user" "A" in
  let b := message "user" "B" in
  manage_context_window [a; b; a; long_message] 1500 = Ok [a; a; b]
  /\ ~ in_conversation_order [a; a; b] [a; b; a; long_message].
Proof.
  intros a b. split; [vm_compute; reflexivity|].
  unfold in_conversation_order. intros Hs.
  apply (fmap_sublist (fun m => bool_decide (m = b))) in Hs.
  vm_compute in Hs.
  repeat match goal with
         | S : sublist _ _ |- _ => inversion S; clear S; subst
         end.
Qed.

(** *** The system message (C4) *)

(** C4, on a failing input.  The system message is sent again at the end of
    the conversation, and the budget is well above its cost: both copies get
    the sort key of the later one, and the user message comes out first. *)
Theorem C4_system_message_not_first_when_repeated :
  let system := message "system" "S" in
  let a := message "user" "A" in
  manage_context_window [system; a; long_message; system] 1500
  = Ok [a; system; system]
  /\ (1500 >= 4)%Z
  /\ _estimate_token_count [system] = Ok 4
  /\ head [a; system; system] <> Some system.
Proof.
  intros system a. repeat split; try (vm_compute; reflexivity).
  - vm_compute. discriminate.
  - discriminate.
Qed.

(** The same with a copy of a message whose keys are written in the other
    order: the two are equal ([==]), both get the position of the first, and
    the message that stood between them comes out after both. *)
Example order_lost_on_reordered_keys :
  let a := message "user" "A" in
  let a' := [("content", VStr "A"); ("role", VStr "user")] in
  let b := message "user" "B" in
  a <> a'
  /\ py_eq (VDict a) (VDict a') = true
  /\ manage_context_window [a; b; a'; long_message] 1500 = Ok [a'; a; b].
Proof.
  intros a a' b. split; [discriminate|]. split; vm_compute; reflexivity.
Qed.

(** *** Budget exhaustion (C5) *)

(** C5 as stated fails.  A system message of 29 tokens and a budget of 10:
    the last message costs
    4 tokens and fits the budget alone, a tail-fill on the budget
    would keep it, and the output does not hold it. *)
Lemma C5_counterexample :
  let system := message "system" (letters 100) in
  let hi := message "user" "hi" in
  _estimate_token_count [system] = Ok 29
  /\ _estimate_token_count [hi] = Ok 4
  /\ tail_fill_loop (reverse [hi]) 10 [] = Ok [hi]
  /\ manage_context_window [system; hi] 10 = Ok [system]
  /\ hi ∉ [system].
Proof.
  intros system hi. repeat split; try (vm_compute; reflexivity).
  intros Hin. apply list_elem_of_singleton in Hin. discriminate Hin.
Qed.

Lemma C5_witness :
  let system := message "system" (letters 100) in
  let hi := message "user" "hi" in
  (get system "role" VNone = VStr "system"
   /\ _estimate_token_count [system; hi] = Ok 33
   /\ _estimate_token_count [system] = Ok 29
   /\ (10 < Z.of_nat 29)%Z)
  /\ manage_context_window [system; hi] 10 = Ok [system].
Proof.
  intros system hi.
  assert (R : get system "role" VNone = VStr "system") by reflexivity.
  assert (E : _estimate_token_count [system; hi] = Ok 33) by (vm_compute; reflexivity).
  assert (S0 : _estimate_token_count [system] = Ok 29) by (vm_compute; reflexivity).
  assert (L : (10 < Z.of_nat 29)%Z) by (vm_compute; reflexivity).
  split; [auto|].
  exact (proj2 C5_system_message_over_budget system [hi] 10%Z 33 29 R E S0 L).
Defined.

(** *** Stream framing (C6) *)

(** C6 as stated fails.  The three lines through the translator of
    [proxy.py]: five frames, the first of which is neither a content frame
    nor the finish frame. *)
Lemma C6_counterexample :
  let lines := [render line_hi; render line_there; render line_done] in
  let chunk := chunk_with (VStr "chatcmpl-0") (VInt 0) (VStr "llama3.1") in
  process_streaming_response lines (VStr "llama3.1") "0" 0
  = ([ sse (chunk [("role", VStr "assistant")] VNone);
       sse (chunk [("content", VStr "Hi")] VNone);
       sse (chunk [("content", VStr " there")] VNone);
       sse (chunk [] (VStr "stop"));
       done_frame ],
     None).
Proof. vm_compute. reflexivity. Qed.

Lemma C6_witness :
  let l1 := render line_hi in
  let l2 := render line_there in
  let l3 := render line_done in
  (is_blank l1 = false /\ is_blank l2 = false /\ is_blank l3 = false
   /\ loads l1 = Some line_hi /\ loads l2 = Some line_there
   /\ loads l3 = Some line_done)
  /\ transform_ollama_stream [l1; l2; l3]
     = ([ sse (chunk_with (VStr "") (VInt 0) (VStr "") [("content", VStr "Hi")] VNone);
          sse (chunk_with (VStr "") (VInt 0) (VStr "") [("content", VStr " there")] VNone);
          sse (chunk_with (VStr "") (VInt 0) (VStr "") [] (VStr "stop"));
          done_frame ],
        None).
Proof.
  intros l1 l2 l3.
  assert (B1 : is_blank l1 = false) by (vm_compute; reflexivity).
  assert (B2 : is_blank l2 = false) by (vm_compute; reflexivity).
  assert (B3 : is_blank l3 = false) by (vm_compute; reflexivity).
  assert (L1 : loads l1 = Some line_hi) by (vm_compute; reflexivity).
  assert (L2 : loads l2 = Some line_there) by (vm_compute; reflexivity).
  assert (L3 : loads l3 = Some line_done) by (vm_compute; reflexivity).
  split; [auto 10|].
  exact (proj1 (C6_stream_framing l1 l2 l3 (VStr "llama3.1") "0" 0%Z
                  B1 B2 B3 L1 L2 L3)).
Defined.

(** *** The reply to a complete response (C7) *)



(** *** Failures of tool calls (C8) *)

(** C8 as stated fails.  The backend names a tool by a list; the
    translation hands the name on as it is, and the orchestration raises
    when it looks the name up: the answer to the call before it, a tool that
    does not exist, is lost with the batch, the call after it is not run,
    and nothing is saved for the session. *)
Lemma C8_counterexample :
  let st := State (∅ : gmap string string) ∅ 0 in
  let unknown := tool_call "call_0" "no_such_tool" "{}" in
  let third := tool_call "call_2" "builtin_read_file" "{}" in
  transform_tool_calls (VList [backend_unknown; backend_listed])
  = Ok [unknown; listed_call]
  /\ handle_tool_calls workspace "session" [message "user" "go"]
       [unknown; listed_call; third] st
     = (Raise (Exc TypeError "unhashable type: list"),
        State (∅ : gmap string string) ∅ 2)
  /\ session_exists "session" (∅ : gmap string (list dict)) = false.
Proof. intros st unknown third. repeat split; vm_compute; reflexivity. Qed.

(** The batch of three calls: a tool that does not exist, a tool that
    raises, and a tool called without its argument. *)
Example batch_outcome :
  fst (handle_tool_calls workspace "session" [message "user" "go"] batch
         (State (∅ : gmap string string) ∅ 0))
  = Ok [ message "user" "go";
         assistant_calling batch;
         tool_message "call_0" "no_such_tool"
           (dumps (error_result "Unknown tool: no_such_tool"));
         tool_message "call_1" "builtin_grep_search"
           (dumps (error_result "Tool execution failed: grep_search failed"));
         tool_message "call_2" "builtin_read_file"
           (dumps (error_result
                     "Tool execution failed: missing 1 required positional argument: filepath")) ].
Proof. vm_compute. reflexivity. Qed.

Lemma C8_witness :
  let st := State (∅ : gmap string string) ∅ 0 in
  (Forall well_formed_tool_call batch
   /\ place "session" = Ok "conversation:session"
   /\ unhashable_tool_call listed_call)
  /\ (exists (tool_messages : list dict) (st' : state),
        let new_messages :=
          [message "user" "go"]
          ++ [[ ("role", VStr "assistant");
                ("tool_calls", VList (map VDict batch)) ]]
          ++ tool_messages in
        handle_tool_calls workspace "session" [message "user" "go"] batch st
        = (Ok new_messages, st')
        /\ Forall2 (answers workspace) batch tool_messages
        /\ store st' !! "conversation:session" = Some new_messages)
  /\ (exists (text : string) (st' : state),
        handle_tool_calls workspace "session" [message "user" "go"]
          (batch ++ listed_call :: batch) st
        = (Raise (Exc TypeError text), st')
        /\ store st' = store st
        /\ tool_executions st' = tool_executions st + length batch + 1).
Proof.
  intros st.
  assert (W : Forall well_formed_tool_call batch).
  { unfold batch.
    repeat (apply Forall_cons; split;
            [eexists; split;
             [do 3 eexists; exists (VDict []); repeat split; reflexivity
             |exact I]|]).
    apply Forall_nil_2. }
  assert (P : place "session" = Ok "conversation:session") by reflexivity.
  assert (U : unhashable_tool_call listed_call).
  { exists (VList [VStr "builtin_ls"]). split; [|intros N; exact N].
    do 3 eexists. exists (VDict []). repeat split; reflexivity. }
  split; [auto|]. split.
  - exact (proj1 (C8_tool_failures_are_contained workspace "session"
                    [message "user" "go"] batch st)
             W "conversation:session" P).
  - exact (proj2 (C8_tool_failures_are_contained workspace "session"
                    [message "user" "go"] (batch ++ listed_call :: batch) st)
             batch listed_call batch eq_refl W U).
Defined.

(** *** The path guard (C10) *)

(** An absolute path outside the workspace: the file exists, and
    [read_file] gives the refusal instead of its text. *)
Lemma C10_witness :
  let w : gmap string string := {["/etc/passwd" := "root"]} in
  let refusal := error_result "Path traversal detected: /etc/passwd" in
  String.prefix (resolve w workspace) (resolve w (joinpath workspace "/etc/passwd"))
  = false
  /\ read_file workspace (VStr "/etc/passwd") w = (refusal, w)
  /\ execute_tool workspace (VStr "builtin_read_file")
       (VDict [("filepath", VStr "/etc/passwd")]) w = (Ok refusal, w).
Proof.
  intros w refusal.
  assert (P : String.prefix (resolve w workspace)
                (resolve w (joinpath workspace "/etc/passwd")) = false)
    by reflexivity.
  pose proof (proj2 (C10_path_traversal_guard workspace "/etc/passwd" w) P)
    as (R & _ & _ & _ & X & _).
  split; [exact P|]. split; [exact R | exact X].
Defined.

End Examples.
(** * Further properties *)

(** ** The estimator and the budgeter on every conversation *)

Section BudgeterMore.
Context `{Json}.

Lemma estimate_loop_shift messages : forall total,
  estimate_loop total messages
  = (n <- estimate_loop 0 messages ;; Ok (total + n)).
Proof.
  induction messages as [|msg messages IH]; intros total; simpl.
  - f_equal. lia.
  - rewrite msg_tokens_shift.
    destruct (msg_tokens 0 msg) as [c|e]; simpl; [|reflexivity].
    rewrite IH, (IH c).
    destruct (estimate_loop 0 messages) as [n|e]; simpl; [f_equal; lia | reflexivity].
Qed.

Lemma estimate_loop_app a b : forall total,
  estimate_loop total (a ++ b)
  = (t <- estimate_loop total a ;; estimate_loop t b).
Proof.
  induction a as [|msg a IH]; intros total; simpl; [reflexivity|].
  destruct (msg_tokens total msg) as [t|e]; simpl; [apply IH | reflexivity].
Qed.

Lemma estimate_at_least messages n :
  _estimate_token_count messages = Ok n -> 4 * length messages <= n.
Proof.
  intros E. pose proof (estimate_Ok _ _ E) as Hp.
  rewrite (estimate_priced _ Hp) in E. injection E as <-.
  induction Hp as [|msg messages Hm _ IH]; [simpl; lia|].
  rewrite fmap_cons. simpl sum_list. simpl length.
  pose proof (tokens_overhead _ Hm). lia.
Qed.

(** X1.  The estimate of two conversations put end to end is the sum of
    their estimates, and it raises as soon as one of them does, the first
    one first; an estimate counts at least 4 tokens for every message. *)
Theorem X1_estimate_is_additive (a b : list dict) :
  _estimate_token_count (a ++ b)
  = (na <- _estimate_token_count a ;;
     nb <- _estimate_token_count b ;;
     Ok (na + nb))
  /\ (forall n, _estimate_token_count a = Ok n -> 4 * length a <= n).
Proof.
  split; [|apply estimate_at_least].
  unfold _estimate_token_count. rewrite estimate_loop_app.
  destruct (estimate_loop 0 a) as [na|e]; simpl; [|reflexivity].
  apply estimate_loop_shift.
Qed.

Lemma reserve_system_priced messages result rest :
  reserve_system messages = (result, rest) ->
  Forall priced messages -> Forall priced result /\ Forall priced rest.
Proof.
  intros Hres Hp. rewrite (reserve_system_eq _ _ _ Hres) in Hp.
  apply Forall_app in Hp. exact Hp.
Qed.

(** X2.  The budgeter fails only through the estimator: when
    [_estimate_token_count] returns on the conversation,
    [manage_context_window] returns, whatever the budget; when it raises,
    [manage_context_window] raises the same exception. *)
Theorem X2_budgeter_returns_when_estimator_does
    (messages : list dict) (max_tokens : Z) :
  (forall n, _estimate_token_count messages = Ok n ->
     exists output, manage_context_window messages max_tokens = Ok output)
  /\ (forall e, _estimate_token_count messages = Raise e ->
        manage_context_window messages max_tokens = Raise e).
Proof.
  split.
  - intros n Hest. unfold manage_context_window.
    destruct messages as [|first messages']; [eauto|].
    rewrite Hest. cbn [bind].
    destruct (_ <=? max_tokens)%Z; [eauto|].
    destruct (reserve_system (first :: messages')) as [result rest] eqn:Hres.
    destruct (reserve_system_priced _ _ _ Hres (estimate_Ok _ _ Hest))
      as [Hpres Hprest].
    rewrite (estimate_priced _ Hpres). cbn [bind].
    destruct (_ <? 1000)%Z.
    + destruct (tail_fill_kept (reverse rest)
                  (max_tokens - Z.of_nat (sum_list (tokens <$> result)))%Z [])
        as [k Hk]; [apply Forall_reverse, Hprest|].
      rewrite Hk. cbn [bind]. eauto.
    + destruct (window_kept rest
                  (max_tokens - Z.of_nat (sum_list (tokens <$> result)))%Z
                  result Hprest) as (kept & _ & Hpack).
      rewrite Hpack. cbn [bind]. eauto.
  - intros e Hest. unfold manage_context_window.
    destruct messages as [|first messages']; [discriminate Hest|].
    rewrite Hest. reflexivity.
Qed.

(** X3.  A conversation whose estimate is within the budget is returned as
    it is, and budgeting what was returned returns it again. *)
Theorem X3_within_budget_unchanged
    (messages : list dict) (max_tokens : Z) (n : nat) :
  _estimate_token_count messages = Ok n ->
  (Z.of_nat n <= max_tokens)%Z ->
  manage_context_window messages max_tokens = Ok messages
  /\ (output <- manage_context_window messages max_tokens ;;
      manage_context_window output max_tokens) = Ok messages.
Proof.
  intros Hest Hfit.
  assert (E : manage_context_window messages max_tokens = Ok messages).
  { unfold manage_context_window. destruct messages as [|first messages'];
      [reflexivity|].
    rewrite Hest. cbn [bind].
    destruct (Z.leb_spec (Z.of_nat n) max_tokens); [reflexivity | lia]. }
  split; [exact E|]. rewrite E. cbn [bind]. exact E.
Qed.

(** X4.  The output is made of messages of the conversation, each at most
    as many times as the conversation has it: the budgeter never makes up a
    message and never repeats one, also when messages are equal. *)
Theorem X4_output_drawn_from_conversation
    (messages : list dict) (max_tokens : Z) (output : list dict) :
  manage_context_window messages max_tokens = Ok output ->
  output ⊆+ messages.
Proof.
  unfold manage_context_window.
  destruct messages as [|first messages']; [intros [= <-]; reflexivity|].
  destruct (_estimate_token_count (first :: messages')) as [n|e] eqn:Hest;
    cbn [bind]; [|discriminate].
  destruct (_ <=? max_tokens)%Z; [intros [= <-]; reflexivity|].
  destruct (reserve_system (first :: messages')) as [result rest] eqn:Hres.
  destruct (reserve_system_priced _ _ _ Hres (estimate_Ok _ _ Hest))
    as [Hpres Hprest].
  pose proof (reserve_system_eq _ _ _ Hres) as Hm.
  rewrite (estimate_priced _ Hpres). cbn [bind].
  destruct (_ <? 1000)%Z.
  - destruct (tail_fill_loop _ _ _) as [last_messages|e] eqn:Hfill; cbn [bind];
      [|discriminate].
    intros [= <-]. rewrite Hm. apply sublist_submseteq.
    apply sublist_app; [reflexivity|].
    eapply tail_fill_sublist; eassumption.
  - destruct (window_kept rest
                (max_tokens - Z.of_nat (sum_list (tokens <$> result)))%Z result Hprest)
      as (kept & Hpick & Hpack).
    rewrite Hpack. cbn [bind]. intros [= <-].
    rewrite sorted_Permutation, concat_reverse_Permutation, Hm.
    apply sublist_submseteq, sublist_app; [reflexivity|].
    rewrite <- (identify_concat rest). apply picks_sublist, Hpick.
Qed.

(** X5.  When no two messages of the conversation are equal ([==], which
    does not see the order of the keys), the output is the conversation with
    some messages left out: the messages kept are in the order of the
    conversation. *)
Theorem X5_order_kept_without_equal_messages
    (messages : list dict) (max_tokens : Z) (output : list dict) :
  no_two_equal messages ->
  manage_context_window messages max_tokens = Ok output ->
  in_conversation_order output messages.
Proof. apply order_preserved_when_distinct. Qed.

(** X6.  When no two messages of the conversation are equal ([==]) and the
    first has role [system], it is the first message of the output, whatever
    the budget. *)
Theorem X6_system_first_without_equal_messages
    (first : dict) (rest : list dict) (max_tokens : Z) (output : list dict) :
  no_two_equal (first :: rest) ->
  get first "role" VNone = VStr "system" ->
  manage_context_window (first :: rest) max_tokens = Ok output ->
  head output = Some first.
Proof.
  intros Hnd Hrole Hout.
  destruct (system_first_when_distinct _ _ _ _ Hnd Hrole Hout) as [later ->].
  reflexivity.
Qed.

(** The low-budget loop: what it keeps is the end of the messages it was
    given, and costs no more than what remained. *)
Lemma tail_fill_fits reversed : forall remaining acc,
  Forall priced reversed ->
  exists kept later,
    tail_fill_loop reversed remaining acc = Ok (kept ++ acc)
    /\ reversed = reverse kept ++ later
    /\ ((0 <= remaining)%Z ->
        (Z.of_nat (sum_list (tokens <$> kept)) <= remaining)%Z).
Proof.
  induction reversed as [|msg reversed IH]; intros remaining acc Hp; simpl.
  - exists [], []. repeat split. simpl. lia.
  - apply Forall_cons in Hp as [Hm Hp].
    rewrite (estimate_one _ Hm). cbn [bind].
    destruct (Z.leb_spec (Z.of_nat (tokens msg)) remaining) as [Hfit|Hover].
    + destruct (IH (remaining - Z.of_nat (tokens msg))%Z (msg :: acc) Hp)
        as (kept & later & E & R & B).
      exists (kept ++ [msg]), later. rewrite E, <- app_assoc.
      split; [reflexivity|]. split.
      * rewrite reverse_app, R. reflexivity.
      * intros _. rewrite fmap_app, sum_list_with_app. simpl. lia.
    + exists [], (msg :: reversed). repeat split. simpl. lia.
Qed.

(** X7.  On the low-budget path (the conversation exceeds the budget and
    fewer than 1000 tokens remain once the system message is reserved) the
    output is the reserved system message followed by the last messages of
    the conversation, without a gap; and when the system message itself is
    within the budget, so is the output. *)
Theorem X7_tail_fill_fits_the_budget
    (messages : list dict) (max_tokens : Z) (estimated_tokens : nat)
    (result rest : list dict) (system_tokens : nat) :
  _estimate_token_count messages = Ok estimated_tokens ->
  (max_tokens < Z.of_nat estimated_tokens)%Z ->
  reserve_system messages = (result, rest) ->
  _estimate_token_count result = Ok system_tokens ->
  (max_tokens - Z.of_nat system_tokens < 1000)%Z ->
  exists older kept,
    rest = older ++ kept
    /\ manage_context_window messages max_tokens = Ok (result ++ kept)
    /\ ((Z.of_nat system_tokens <= max_tokens)%Z ->
        exists n, _estimate_token_count (result ++ kept) = Ok n
                  /\ (Z.of_nat n <= max_tokens)%Z).
Proof.
  intros Hest Hover Hres Hsys Hlow.
  destruct (reserve_system_priced _ _ _ Hres (estimate_Ok _ _ Hest))
    as [Hpres Hprest].
  destruct (tail_fill_fits (reverse rest) (max_tokens - Z.of_nat system_tokens)%Z []
              (proj2 (Forall_reverse _ _) Hprest))
    as (kept & later & Hfill & Hrev & Hbound).
  rewrite app_nil_r in Hfill.
  assert (Hrest : rest = reverse later ++ kept).
  { rewrite <- (reverse_involutive rest), Hrev, reverse_app, reverse_involutive.
    reflexivity. }
  exists (reverse later), kept. split; [exact Hrest|]. split.
  - unfold manage_context_window. destruct messages as [|first messages'].
    { simpl in Hest. injection Hest as <-. simpl in Hres. injection Hres as <- <-.
      simpl in Hsys. injection Hsys as <-.
      destruct later, kept; try discriminate. reflexivity. }
    rewrite Hest. cbn [bind].
    destruct (Z.leb_spec (Z.of_nat estimated_tokens) max_tokens); [lia|].
    rewrite Hres, Hsys. cbn [bind].
    destruct (Z.ltb_spec (max_tokens - Z.of_nat system_tokens) 1000); [|lia].
    rewrite Hfill. reflexivity.
  - intros Hfits.
    assert (Hpk : Forall priced kept).
    { rewrite Hrest in Hprest. apply Forall_app in Hprest. tauto. }
    rewrite (estimate_priced _ Hpres) in Hsys. injection Hsys as <-.
    eexists. split.
    + apply estimate_priced, Forall_app. split; assumption.
    + rewrite fmap_app, sum_list_with_app. specialize (Hbound ltac:(lia)). lia.
Qed.

(** X8.  Every sequence that [_identify_tool_sequences] returns is a single
    message, or an assistant message that bears tool calls followed by
    tool-role messages only: no assistant message with tool calls is ever
    inside a sequence, and no message other than a tool answer follows
    one. *)
Theorem X8_sequences_are_tool_exchanges (messages : list dict) :
  Forall sequence_shape (_identify_tool_sequences messages).
Proof. apply identify_shape. Qed.

Lemma identify_loop_plain messages : forall sequences current,
  Forall (fun msg => ~ bears_calls msg) messages ->
  identify_loop messages sequences current false
  = sequences ++ match current with [] => [] | _ => [current] end
    ++ ((fun msg => [msg]) <$> messages).
Proof.
  induction messages as [|msg messages IH]; intros sequences current Hn; simpl.
  - destruct current; rewrite ?app_nil_r; reflexivity.
  - apply Forall_cons in Hn as [Hm Hn].
    destruct (bool_decide (get msg "role" (VStr "") = VStr "assistant")
              && has msg "tool_calls" && truthy (get msg "tool_calls" VNone)) eqn:E.
    { exfalso. apply Hm.
      apply andb_prop in E as [E Et]. apply andb_prop in E as [Er Eh].
      apply bool_decide_eq_true_1 in Er. unfold bears_calls. auto. }
    rewrite andb_false_r. simpl.
    destruct current as [|m current]; rewrite IH by exact Hn; simpl;
      rewrite <- ?app_assoc; reflexivity.
Qed.

(** X9.  In a conversation where no assistant message bears tool calls,
    every message is a sequence of its own, tool-role messages included. *)
Theorem X9_plain_conversation_splits_into_messages (messages : list dict) :
  Forall (fun msg => ~ bears_calls msg) messages ->
  _identify_tool_sequences messages = (fun msg => [msg]) <$> messages.
Proof.
  intros Hn. unfold _identify_tool_sequences.
  rewrite identify_loop_plain by exact Hn. reflexivity.
Qed.

End BudgeterMore.
(** ** The path of a request in [main.py] *)

Import Gateway Words.

Section GatewayFacts.
Context `{Json} `{System} `{Storage} `{Config}.
Variable workspace : string.
Variable ollama_chat : dict -> res value.
Variable ollama_stream : dict -> res (list string).

Lemma has_lookup (d : dict) k : has d k = true <-> is_Some (lookup d k).
Proof.
  unfold has. destruct (lookup d k); split; intros Hx; eauto;
    try discriminate; destruct Hx; discriminate.
Qed.

Lemma lookup_dict_set (d : dict) k v k' :
  lookup (dict_set d k v) k'
  = if String.eqb k' k then Some v else lookup d k'.
Proof.
  induction d as [|[k0 v0] d IH]; simpl.
  - destruct (String.eqb k' k); reflexivity.
  - destruct (String.eqb_spec k k0) as [->|Hne]; simpl.
    + destruct (String.eqb k' k0); reflexivity.
    + destruct (String.eqb_spec k' k0) as [->|Hne'].
      * destruct (String.eqb_spec k0 k) as [->|_]; [contradiction | reflexivity].
      * exact IH.
Qed.

Lemma transform_to_ollama_lookup (body : dict) :
  lookup (transform_to_ollama body) "messages"
  = Some (get body "messages" (VList []))
  /\ lookup (transform_to_ollama body) "tools" = lookup body "tools".
Proof.
  unfold transform_to_ollama, has.
  destruct (lookup body "temperature") as [temperature|] eqn:Et;
    destruct (lookup body "tools") as [tools|] eqn:Eo;
    unfold get; rewrite ?Et, ?Eo; simpl; auto.
Qed.

(** X10.  The request for the backend carries [model], [messages] and
    [stream] (each with its default when the body lacks it), [temperature]
    and [tools] exactly when the body has them, and no other field of the
    body; translating a translated request changes nothing. *)
Theorem X10_request_translation (body : dict) :
  let request := transform_to_ollama body in
  lookup request "model" = Some (get body "model" (VStr DEFAULT_MODEL))
  /\ lookup request "messages" = Some (get body "messages" (VList []))
  /\ lookup request "stream" = Some (get body "stream" (VBool false))
  /\ lookup request "temperature" = lookup body "temperature"
  /\ lookup request "tools" = lookup body "tools"
  /\ (forall k, k ∉ ["model"; "messages"; "stream"; "temperature"; "tools"] ->
        lookup request k = None)
  /\ transform_to_ollama request = request.
Proof.
  unfold transform_to_ollama, has.
  assert (Hother : forall k : string,
             k ∉ ["model"; "messages"; "stream"; "temperature"; "tools"] ->
             String.eqb k "model" = false /\ String.eqb k "messages" = false
             /\ String.eqb k "stream" = false /\ String.eqb k "temperature" = false
             /\ String.eqb k "tools" = false).
  { intros k Hk. repeat split; apply String.eqb_neq; intros ->; apply Hk;
      repeat constructor. }
  destruct (lookup body "temperature") as [temperature|] eqn:Et;
    destruct (lookup body "tools") as [tools|] eqn:Eo;
    unfold get; rewrite ?Et, ?Eo; simpl;
    (repeat split; try reflexivity;
     intros k Hk; destruct (Hother k Hk) as (E1 & E2 & E3 & E4 & E5);
     rewrite ?E1, ?E2, ?E3, ?E4, ?E5; reflexivity).
Qed.

#[local] Arguments manage_context_window : simpl never.
#[local] Arguments transform_to_ollama : simpl never.

(** X11.  A request for a model that is neither in the list of supported
    models nor named [ollama/...] is answered by the error body; nothing is
    counted, no session is written and the backend is not called. *)
Theorem X11_unsupported_model_is_refused
    (body : dict) (session_id : string) (messages : list dict) (sv : server)
    (name : string) :
  get body "model" (VStr DEFAULT_MODEL) = VStr name ->
  name ∉ SUPPORTED_MODELS ->
  String.prefix "ollama/" name = false ->
  chat_completions workspace ollama_chat ollama_stream body session_id messages sv
  = (Ok (Body [("error", VStr "Model doesn't support tool calling")]), sv).
Proof.
  intros Hm Hout Hprefix. unfold chat_completions, model_supported.
  rewrite Hm, Hprefix. rewrite bool_decide_eq_false_2; [reflexivity|].
  intros Hin. apply Hout. apply list_elem_of_fmap in Hin as (s & [= ->] & Hs).
  exact Hs.
Qed.

(** What [prepare_chat] does when it returns. *)
Lemma prepare_chat_Ok (body : dict) (session_id : string)
    (messages saved : list dict) (request : dict) (sv sv' : server) :
  prepare_chat body session_id messages sv = (Ok (saved, request), sv') ->
  exists (loaded : list dict) (key : string),
    (if session_exists session_id (sessions sv)
     then adopt_history messages (get_history session_id (sessions sv))
     else Ok messages) = Ok loaded
    /\ manage_context_window loaded 4096 = Ok saved
    /\ place session_id = Ok key
    /\ request
       = transform_to_ollama
           (if has body "tools" then body
            else dict_set body "tools" TOOL_DEFINITIONS)
    /\ sv' = Server (State (world (app sv)) (<[key := saved]> (sessions sv))
                       (tool_executions (app sv)))
               (S (request_count sv)) (S (active_sessions sv)).
Proof.
  unfold prepare_chat. cbn [app request_count active_sessions].
  change (sessions (Server (app sv) (S (request_count sv))
                      (S (active_sessions sv))))
    with (sessions sv).
  destruct (if session_exists _ _ then _ else _) as [loaded|e]; [|discriminate].
  destruct (manage_context_window loaded 4096) as [kept|e] eqn:Ek; [|discriminate].
  unfold save_message.
  destruct (place session_id) as [key|e]; cbn [bind]; [|discriminate].
  intros [= <- <- <-]. exists loaded, key. auto.
Qed.

Lemma adopt_history_cases (messages history : list dict) (loaded : list dict) :
  adopt_history messages history = Ok loaded ->
  loaded = messages \/ loaded = history.
Proof.
  unfold adopt_history. destruct messages as [|first more]; [intros [= <-]; auto|].
  destruct (bool_decide _); [|intros [= <-]; auto].
  destruct history as [|stored history]; [discriminate|].
  destruct (_ && _); intros [= <-]; auto.
Qed.

(** X12.  What is sent to the backend is the body as it came: its own
    [messages], whatever the session holds and whatever the budgeter kept,
    and its own [tools] or, when it has none, the default tool
    definitions.  What is saved, at the place of the session, is what the
    budgeter, with a budget of 4096 tokens, keeps of the messages of the
    request or of the stored history -- of the messages of the request when
    the session does not exist. *)
Theorem X12_backend_gets_the_messages_of_the_body
    (body : dict) (session_id : string) (messages saved : list dict)
    (request : dict) (sv sv' : server) :
  prepare_chat body session_id messages sv = (Ok (saved, request), sv') ->
  lookup request "messages" = Some (get body "messages" (VList []))
  /\ lookup request "tools" = Some (get body "tools" TOOL_DEFINITIONS)
  /\ (exists loaded,
        (loaded = messages \/ loaded = get_history session_id (sessions sv))
        /\ manage_context_window loaded 4096 = Ok saved)
  /\ (session_exists session_id (sessions sv) = false ->
      manage_context_window messages 4096 = Ok saved)
  /\ (exists key,
        place session_id = Ok key
        /\ sessions sv' = <[key := saved]> (sessions sv)).
Proof.
  intros E.
  apply prepare_chat_Ok in E as (loaded & key & Hl & Hk & Hp & -> & ->).
  set (body' := if has body "tools" then body
                else dict_set body "tools" TOOL_DEFINITIONS).
  destruct (transform_to_ollama_lookup body') as (Hmsg & Htools).
  rewrite Hmsg, Htools. subst body'.
  split; [|split; [|split; [|split]]].
  - unfold get, has. destruct (lookup body "tools") as [tools|] eqn:Et;
      [reflexivity|].
    rewrite !lookup_dict_set. reflexivity.
  - unfold get, has. destruct (lookup body "tools") as [tools|] eqn:Et.
    + rewrite Et. reflexivity.
    + rewrite !lookup_dict_set. reflexivity.
  - exists loaded. split; [|exact Hk].
    destruct (session_exists session_id (sessions sv)).
    + apply adopt_history_cases in Hl. exact Hl.
    + injection Hl as <-. auto.
  - intros Hnew. rewrite Hnew in Hl. injection Hl as <-. exact Hk.
  - exists key. auto.
Qed.


(** X14.  A request without messages for a session that does not exist
    saves an empty history at the place of the session.  As long as an empty
    history is what the session holds, every request of that session whose
    first message has role [system] fails on the first message of the empty
    history ([IndexError]) before the backend is called, and leaves the
    store as it is. *)
Theorem X14_empty_history_breaks_the_session (session_id key : string) :
  place session_id = Ok key ->
  (forall (body : dict) (sv : server),
     session_exists session_id (sessions sv) = false ->
     exists request sv1,
       prepare_chat body session_id [] sv = (Ok ([], request), sv1)
       /\ sessions sv1 !! key = Some [])
  /\ (forall (body : dict) (first : dict) (more : list dict) (sv : server),
        sessions sv !! key = Some [] ->
        get first "role" VNone = VStr "system" ->
        exists sv',
          prepare_chat body session_id (first :: more) sv
          = (Raise (Exc OtherException "list index out of range"), sv')
          /\ sessions sv' = sessions sv
          /\ (model_supported (get body "model" (VStr DEFAULT_MODEL)) = Ok true ->
              chat_completions workspace ollama_chat ollama_stream body
                session_id (first :: more) sv
              = (Raise (Exc OtherException "list index out of range"), sv'))).
Proof.
  intros Hp. split.
  - intros body sv Hnew. unfold prepare_chat. unfold sessions in *. simpl.
    rewrite Hnew. unfold save_message. rewrite Hp. cbn [bind].
    eexists _, _. split; [reflexivity|].
    cbn [app store]. apply lookup_insert_eq.
  - intros body first more sv Hs Hf.
    assert (E : prepare_chat body session_id (first :: more) sv
                = (Raise (Exc OtherException "list index out of range"),
                   Server (app sv) (S (request_count sv))
                     (S (active_sessions sv)))).
    { unfold prepare_chat, session_exists, get_history, sessions in *.
      cbn [app store request_count active_sessions].
      rewrite Hp, Hs. rewrite bool_decide_eq_true_2 by eauto.
      cbn [adopt_history]. rewrite Hf. rewrite bool_decide_eq_true_2 by reflexivity.
      reflexivity. }
    eexists. split; [exact E|]. split; [reflexivity|].
    intros Hmodel. unfold chat_completions. rewrite Hmodel, E. reflexivity.
Qed.

Lemma transform_readable calls : forall i,
  Forall readable_call calls ->
  exists translated,
    transform_calls_from i calls = Ok translated
    /\ Forall well_formed_tool_call translated
    /\ length translated = length calls.
Proof.
  induction calls as [|call calls IH]; intros i Hr; simpl.
  - exists []. repeat split; constructor.
  - apply Forall_cons in Hr as [(c & fn & name & arguments & -> & Hfn & Hn & Ha & Hl) Hr].
    simpl. unfold item. rewrite Hfn. simpl. unfold item. rewrite Hn, Ha. simpl.
    destruct (IH (S i) Hr) as (translated & -> & Hw & Hlen). simpl.
    eexists. split; [reflexivity|]. split; [|simpl; rewrite Hlen; reflexivity].
    constructor; [|exact Hw].
    exists (VStr name). split; [|exact I].
    eexists _, _, (dumps arguments), arguments.
    repeat split; try reflexivity. exact Hl.
Qed.

#[local] Arguments prepare_chat : simpl never.
#[local] Arguments transform_tool_calls : simpl never.
#[local] Arguments execute_tool : simpl never.

(** X15.  A request that does not ask for a stream and that the backend
    answers with tool calls: the response carries the translated calls with
    [finish_reason = tool_calls], and once the background task has run the
    session holds the budgeted messages, then one assistant message with
    the calls, then one tool message for each call, in order. *)
Theorem X15_tool_calls_end_to_end
    (body : dict) (session_id : string) (messages saved : list dict)
    (request response message : dict) (calls : list value)
    (sv sv1 : server) :
  model_supported (get body "model" (VStr DEFAULT_MODEL)) = Ok true ->
  truthy (get body "stream" (VBool false)) = false ->
  prepare_chat body session_id messages sv = (Ok (saved, request), sv1) ->
  ollama_chat request = Ok (VDict response) ->
  lookup response "message" = Some (VDict message) ->
  lookup message "tool_calls" = Some (VList calls) ->
  calls <> [] ->
  Forall readable_call calls ->
  exists (reply : dict) (sv2 : server) (tool_calls tool_messages : list dict)
         (key : string),
    chat_completions workspace ollama_chat ollama_stream body session_id
      messages sv
    = (Ok (Body reply), sv2)
    /\ transform_tool_calls (VList calls) = Ok tool_calls
    /\ single_choice reply
       = Some (VDict [ ("index", VInt 0);
                       ("message",
                        VDict [ ("role", VStr "assistant");
                                ("tool_calls", VList (map VDict tool_calls)) ]);
                       ("finish_reason", VStr "tool_calls") ])
    /\ Forall2 (answers workspace) tool_calls tool_messages
    /\ place session_id = Ok key
    /\ sessions sv2 !! key
       = Some (saved
               ++ [[ ("role", VStr "assistant");
                     ("tool_calls", VList (map VDict tool_calls)) ]]
               ++ tool_messages).
Proof.
  intros Hmodel Hstream Hprep Hchat Hmsg Hcalls Hne Hread.
  destruct (prepare_chat_Ok _ _ _ _ _ _ _ Hprep) as (_ & key & _ & _ & Hp & _ & _).
  destruct (transform_readable calls 0 Hread) as (tool_calls & Htr & Hw & _).
  assert (Htr' : transform_tool_calls (VList calls) = Ok tool_calls) by exact Htr.
  destruct (tool_loop_returns workspace tool_calls
              (saved ++ [[ ("role", VStr "assistant");
                           ("tool_calls", VList (map VDict tool_calls)) ]])
              (app sv1) Hw)
    as (tool_messages & st' & Hloop & Hans & _ & _).
  unfold chat_completions. rewrite Hmodel, Hprep, Hstream, Hchat.
  unfold chat_completions_reply, get, item. rewrite Hmsg. simpl.
  unfold get, item. rewrite Hcalls. destruct calls as [|call calls]; [contradiction|].
  simpl. rewrite Htr'. simpl.
  unfold handle_tool_calls. rewrite Hloop. unfold save_message. rewrite Hp.
  cbn [bind].
  eexists _, _, tool_calls, tool_messages, key.
  split; [reflexivity|]. split; [reflexivity|]. split; [reflexivity|].
  split; [exact Hans|]. split; [reflexivity|].
  unfold sessions. simpl. rewrite <- app_assoc.
  apply lookup_insert_eq.
Qed.

End GatewayFacts.
(** ** The translation of tool calls *)

Section CallsMore.
Context `{Json}.

Lemma transform_calls_iff calls : forall i translated,
  transform_calls_from i calls = Ok translated
  <-> translates_from i calls translated.
Proof.
  induction calls as [|call calls IH]; intros i translated; simpl.
  - split.
    + intros [= <-]. constructor.
    + intros Ht. inversion Ht. reflexivity.
  - split.
    + destruct call as [| | | | |c]; simpl; try discriminate.
      unfold item.
      destruct (lookup c "function") as [[| | | | |fn]|] eqn:Efn; simpl;
        try discriminate.
      unfold item.
      destruct (lookup fn "name") as [name|] eqn:En; simpl; [|discriminate].
      destruct (lookup fn "arguments") as [arguments|] eqn:Ea; simpl;
        [|discriminate].
      destruct (transform_calls_from (S i) calls) as [rest|e] eqn:Er; simpl;
        [|discriminate].
      intros [= <-]. constructor; [|apply IH, Er].
      exists c, fn, name, arguments. auto.
    + intros Ht. inversion Ht as [|? ? ? t rest Hc Hr]; subst.
      destruct Hc as (c & fn & name & arguments & -> & Hfn & Hn & Ha & ->).
      apply IH in Hr. simpl. unfold item. rewrite Hfn. simpl. unfold item.
      rewrite Hn, Ha. simpl. rewrite Hr. reflexivity.
Qed.

Lemma translates_from_length i calls translated :
  translates_from i calls translated -> length translated = length calls.
Proof. induction 1; simpl; auto. Qed.

(** X16.  [transform_tool_calls] returns on a list of calls exactly when
    every call is a dictionary whose [function] is a dictionary with [name]
    and [arguments]; it then gives one call for each, in order, with the
    identifier of the backend or [call_<position>] when there is none, the
    name unchanged and the arguments serialized by [json.dumps]. *)
Theorem X16_tool_calls_translation (calls : list value) (translated : list dict) :
  (transform_tool_calls (VList calls) = Ok translated
   <-> translates_from 0 calls translated)
  /\ (translates_from 0 calls translated -> length translated = length calls).
Proof.
  split; [apply transform_calls_iff | apply translates_from_length].
Qed.

Lemma decimal_inj i j : decimal i = decimal j -> i = j.
Proof.
  unfold decimal. intros E.
  apply (f_equal DecimalString.NilEmpty.uint_of_string) in E.
  rewrite !DecimalString.NilEmpty.usu in E. injection E as E.
  apply (f_equal Nat.of_uint) in E.
  rewrite !DecimalNat.Unsigned.of_to in E. exact E.
Qed.

Lemma translates_from_ids i calls translated :
  translates_from i calls translated ->
  Forall (fun call => forall c, call = VDict c -> lookup c "id" = None) calls ->
  (fun t => get t "id" VNone) <$> translated
  = (fun k => VStr ("call_" +:+ decimal k)) <$> seq i (length calls).
Proof.
  induction 1 as [|i call calls t rest Hc _ IH]; intros Hid; [reflexivity|].
  apply Forall_cons in Hid as [Hcall Hid].
  destruct Hc as (c & fn & name & arguments & -> & _ & _ & _ & ->).
  cbn. rewrite IH by exact Hid. f_equal.
  unfold get. rewrite (Hcall c eq_refl). reflexivity.
Qed.

(** X17.  When the backend gives no identifier to any of its calls, the
    translated calls are numbered [call_0], [call_1], ... by position, and
    no two of them have the same identifier. *)
Theorem X17_synthetic_ids_are_distinct
    (calls : list value) (translated : list dict) :
  Forall (fun call => forall c, call = VDict c -> lookup c "id" = None) calls ->
  transform_tool_calls (VList calls) = Ok translated ->
  (fun t => get t "id" VNone) <$> translated
  = (fun k => VStr ("call_" +:+ decimal k)) <$> seq 0 (length calls)
  /\ NoDup ((fun t => get t "id" VNone) <$> translated).
Proof.
  intros Hid Htr. apply transform_calls_iff in Htr.
  pose proof (translates_from_ids _ _ _ Htr Hid) as E.
  split; [exact E|]. rewrite E.
  apply NoDup_fmap_2; [|apply NoDup_seq].
  intros a b [= Hab]. apply decimal_inj, Hab.
Qed.

End CallsMore.

(** ** The stream translator of [main.py] on every stream *)

Section StreamMore.
Context `{Json}.

(** X18.  Blank lines and lines that are not JSON leave no trace: the
    frames of a stream are those of the stream without these lines. *)
Theorem X18_unreadable_lines_are_skipped (stream : list string) :
  transform_ollama_stream stream
  = transform_ollama_stream (filter (fun line => skipped line = false) stream).
Proof.
  induction stream as [|line stream IH]; [reflexivity|].
  unfold skipped at 1. simpl transform_ollama_stream.
  destruct (is_blank line) eqn:Eb.
  - rewrite filter_cons_False; [exact IH|].
    unfold skipped. rewrite Eb. discriminate.
  - destruct (loads line) as [chunk|] eqn:El.
    + rewrite filter_cons_True by (unfold skipped; rewrite Eb, El; reflexivity).
      simpl. rewrite Eb, El, IH. reflexivity.
    + rewrite filter_cons_False; [exact IH|].
      unfold skipped. rewrite Eb, El. discriminate.
Qed.

Lemma stream_ends_with_sentinel stream frames :
  transform_ollama_stream stream = (frames, None) ->
  exists before, frames = before ++ [done_frame].
Proof.
  revert frames. induction stream as [|line stream IH]; intros frames; simpl.
  - intros [= <-]. exists []. reflexivity.
  - destruct (is_blank line); [apply IH|].
    destruct (loads line) as [chunk|]; [|apply IH].
    destruct (line_frames chunk) as [now|e]; [|discriminate].
    destruct (transform_ollama_stream stream) as [later ended] eqn:E.
    intros [= <- ->]. destruct (IH later eq_refl) as [before ->].
    exists (now ++ before). rewrite app_assoc. reflexivity.
Qed.

Lemma stream_app a : forall b before,
  transform_ollama_stream a = (before ++ [done_frame], None) ->
  transform_ollama_stream (a ++ b)
  = (before ++ fst (transform_ollama_stream b),
     snd (transform_ollama_stream b)).
Proof.
  induction a as [|line a IH]; intros b before; simpl.
  - intros [= E]. destruct before as [|f before]; [|destruct before; discriminate].
    destruct (transform_ollama_stream b). reflexivity.
  - destruct (is_blank line); [apply IH|].
    destruct (loads line) as [chunk|]; [|apply IH].
    destruct (line_frames chunk) as [now|e]; [|discriminate].
    destruct (transform_ollama_stream a) as [later ended] eqn:E.
    intros [= E1 ->].
    destruct (stream_ends_with_sentinel a later E) as [mid ->].
    rewrite app_assoc in E1. apply app_inj_tail in E1 as [<- _].
    rewrite (IH b mid eq_refl). rewrite <- app_assoc. reflexivity.
Qed.

(** X19.  A stream that is translated without an exception ends with the
    [[DONE]] sentinel, and its frames come in the order of the lines: the
    frames of a stream followed by more lines are the frames of the stream,
    without the sentinel, followed by the frames of those lines. *)
Theorem X19_frames_follow_the_lines (a : list string) (frames : list string) :
  transform_ollama_stream a = (frames, None) ->
  exists before,
    frames = before ++ [done_frame]
    /\ forall b,
         transform_ollama_stream (a ++ b)
         = (before ++ fst (transform_ollama_stream b),
            snd (transform_ollama_stream b)).
Proof.
  intros E. destruct (stream_ends_with_sentinel a frames E) as [before ->].
  exists before. split; [reflexivity|]. intros b. apply stream_app, E.
Qed.

(** X20.  A line on which the translation raises (a line that parses to
    something that is not a dictionary, a [message] that is not one, a
    tool call without a [function]) ends the stream there: the frames of the
    lines before it are sent, nothing of the line or of the lines after it,
    and no sentinel. *)
Theorem X20_a_failing_line_ends_the_stream
    (a b : list string) (before : list string) (line : string)
    (parsed : value) (e : exc) :
  transform_ollama_stream a = (before ++ [done_frame], None) ->
  is_blank line = false ->
  loads line = Some parsed ->
  line_frames parsed = Raise e ->
  transform_ollama_stream (a ++ line :: b) = (before, Some e)
  /\ ((forall d, parsed <> VDict d) -> exists text, e = Exc AttributeError text).
Proof.
  intros Ha Hb Hl Hf. split.
  - rewrite (stream_app a (line :: b) before Ha). simpl.
    rewrite Hb, Hl, Hf. simpl. rewrite app_nil_r. reflexivity.
  - intros Hd. destruct parsed; simpl in Hf; try (injection Hf as <-; eauto).
    exfalso. eapply Hd. reflexivity.
Qed.

End StreamMore.
(** ** The orchestration on every batch *)

Section OrchestrationMore.
Context `{Json} `{System} `{Storage}.
Variable workspace : string.

#[local] Arguments execute_tool : simpl never.



(** ** The dispatcher and the path guard on every input *)

(** X22.  [execute_tool] returns a result for every tool name that is not
    a list or a dictionary, whatever the handler does with the arguments;
    for a name that is a list or a dictionary it raises [TypeError] and
    leaves the world as it is. *)
Theorem X22_dispatcher_raises_only_on_unhashable_names
    (tool_name arguments : value) (w : World) :
  match tool_name with
  | VList _ | VDict _ =>
      exists text,
        execute_tool workspace tool_name arguments w
        = (Raise (Exc TypeError text), w)
  | _ =>
      exists tool_result w',
        execute_tool workspace tool_name arguments w = (Ok tool_result, w')
  end.
Proof.
  unfold execute_tool.
  destruct tool_name as [| | |name| |]; try (eexists; reflexivity);
    try (eexists _, _; reflexivity).
  destruct (handlers_get (handlers workspace) name) as [handler|];
    [|eexists _, _; reflexivity].
  destruct (handler arguments w) as [[result|e] w']; eexists _, _; reflexivity.
Qed.

(** X23.  A file tool called with arguments that do not fit its parameters
    (not a dictionary, a parameter missing, a key that is no parameter)
    answers [Tool execution failed] and leaves the file system as it is. *)
Theorem X23_misfit_arguments_touch_nothing (arguments : value) (w : World) :
  let failed e := (Ok (error_result ("Tool execution failed: " +:+ exc_str e)), w) in
  (forall e, bind_kwargs ["filepath"] [] arguments = Raise e ->
     execute_tool workspace (VStr "builtin_read_file") arguments w = failed e)
  /\ (forall e, bind_kwargs ["filepath"; "changes"] [] arguments = Raise e ->
        execute_tool workspace (VStr "builtin_edit_existing_file") arguments w
        = failed e)
  /\ (forall e, bind_kwargs ["filepath"; "contents"] [] arguments = Raise e ->
        execute_tool workspace (VStr "builtin_create_new_file") arguments w
        = failed e)
  /\ (forall e,
        bind_kwargs ["dirPath"] [("recursive", VBool false)] arguments = Raise e ->
        execute_tool workspace (VStr "builtin_ls") arguments w = failed e)
  /\ ((forall d, arguments <> VDict d) ->
      exists e, bind_kwargs ["filepath"] [] arguments = Raise e
                /\ bind_kwargs ["filepath"; "changes"] [] arguments = Raise e
                /\ bind_kwargs ["filepath"; "contents"] [] arguments = Raise e
                /\ bind_kwargs ["dirPath"] [("recursive", VBool false)] arguments
                   = Raise e).
Proof.
  intros failed. subst failed. repeat split.
  1-4: intros e E; unfold execute_tool; cbn -[bind_kwargs];
       unfold call_read_file, call_edit_existing_file, call_create_new_file,
         call_list_directory; rewrite E; reflexivity.
  intros Hd. destruct arguments; try (eexists; repeat split; reflexivity).
  exfalso. eapply Hd. reflexivity.
Qed.

Lemma prefix_append (a b : string) : String.prefix a (a +:+ b) = true.
Proof.
  induction a as [|c a IH]; simpl.
  - destruct b; reflexivity.
  - destruct (Ascii.ascii_dec c c) as [_|N]; [exact IH | contradiction].
Qed.

(** X24.  The guard compares texts: every path whose resolved text begins
    with the resolved text of the workspace is let through, also one that
    continues the name of the workspace directory instead of entering it (a
    sibling directory [<workspace>_other]); [read_file] then reads the
    file. *)
Theorem X24_guard_lets_sibling_directories_through
    (filepath suffix : string) (w : World) :
  resolve w (joinpath workspace filepath) = resolve w workspace +:+ suffix ->
  _resolve_path workspace filepath w = Ok (resolve w workspace +:+ suffix)
  /\ (forall text,
        path_exists w (resolve w workspace +:+ suffix) = true ->
        read_text w (resolve w workspace +:+ suffix) = Ok text ->
        read_file workspace (VStr filepath) w
        = (VDict [("content", VStr text)], w)).
Proof.
  intros E.
  assert (R : _resolve_path workspace filepath w
              = Ok (resolve w workspace +:+ suffix)).
  { unfold _resolve_path. rewrite E, prefix_append. reflexivity. }
  split; [exact R|].
  intros text Hex Hread. unfold read_file. simpl. rewrite R. simpl.
  rewrite Hex, Hread. reflexivity.
Qed.

End OrchestrationMore.

(** ** The request and the stream of [proxy.py] *)

Import ProxyRequest.

Section ProxyMore.
Context `{Json}.

Lemma has_system_cons msg messages :
  has_system (msg :: messages)
  = bool_decide (get msg "role" VNone = VStr "system") || has_system messages.
Proof. reflexivity. Qed.

(** X25.  The request of [proxy.py] to the backend: an empty list of
    messages stays empty; any other list has a system message once the
    default prompt is added, in front and only when there was none, so that
    adding it twice adds nothing; and the request never carries [tools] or
    [temperature]. *)
Theorem X25_system_prompt (body : dict) (messages : list dict) (stream : bool) :
  with_system_prompt [] = []
  /\ has_system (with_system_prompt messages)
     = match messages with [] => false | _ => true end
  /\ (exists added,
        with_system_prompt messages = added ++ messages
        /\ (added = []
            \/ added = [[ ("role", VStr "system");
                          ("content", VStr DEFAULT_SYSTEM_PROMPT) ]]
               /\ has_system messages = false))
  /\ with_system_prompt (with_system_prompt messages) = with_system_prompt messages
  /\ lookup (ollama_request body messages stream) "tools" = None
  /\ lookup (ollama_request body messages stream) "temperature" = None.
Proof.
  split; [reflexivity|].
  destruct messages as [|msg messages].
  { repeat split. exists []. auto. }
  destruct (has_system (msg :: messages)) eqn:E.
  - assert (W : with_system_prompt (msg :: messages) = msg :: messages).
    { unfold with_system_prompt. rewrite E. reflexivity. }
    rewrite !W, E.
    split; [reflexivity|]. split; [exists []; auto|]. repeat split.
  - assert (W : with_system_prompt (msg :: messages)
                = [("role", VStr "system"); ("content", VStr DEFAULT_SYSTEM_PROMPT)]
                  :: msg :: messages).
    { unfold with_system_prompt. rewrite E. reflexivity. }
    rewrite !W.
    split; [reflexivity|].
    split; [eexists [_]; split; [reflexivity|]; right; auto|].
    repeat split.
Qed.

Lemma content_frames_skip chat_id creation_time model_name lines :
  content_frames chat_id creation_time model_name lines
  = content_frames chat_id creation_time model_name
      (filter (fun line => skipped line = false) lines).
Proof.
  induction lines as [|line lines IH]; [reflexivity|].
  simpl content_frames.
  destruct (is_blank line) eqn:Eb.
  - rewrite filter_cons_False; [exact IH|].
    unfold skipped. rewrite Eb. discriminate.
  - destruct (loads line) as [chunk|] eqn:El.
    + rewrite filter_cons_True by (unfold skipped; rewrite Eb, El; reflexivity).
      simpl. rewrite Eb, El, IH. reflexivity.
    + rewrite filter_cons_False; [exact IH|].
      unfold skipped. rewrite Eb, El. discriminate.
Qed.

(** X26.  The stream of [proxy.py] always opens with the frame of the role;
    blank lines and lines that are not JSON leave no trace; and a stream
    that is translated without an exception closes with the frame
    [finish_reason = stop] followed by the [[DONE]] sentinel -- when all the
    lines are blank or not JSON these three frames are all there is. *)
Theorem X26_proxy_stream_envelope
    (lines : list string) (model_name : value) (uuid4 : string) (now : Z) :
  let chunk := stream_chunk ("chatcmpl-" +:+ uuid4) now model_name in
  process_streaming_response lines model_name uuid4 now
  = process_streaming_response (filter (fun line => skipped line = false) lines)
      model_name uuid4 now
  /\ (exists frames,
        fst (process_streaming_response lines model_name uuid4 now)
        = sse (chunk [("role", VStr "assistant")] VNone) :: frames
        /\ (snd (process_streaming_response lines model_name uuid4 now) = None ->
            exists contents,
              frames = contents ++ [sse (chunk [] (VStr "stop")); done_frame]))
  /\ (Forall (fun line => skipped line = true) lines ->
      process_streaming_response lines model_name uuid4 now
      = ([ sse (chunk [("role", VStr "assistant")] VNone);
           sse (chunk [] (VStr "stop"));
           done_frame ], None)).
Proof.
  intros chunk. subst chunk. split; [|split].
  - unfold process_streaming_response. rewrite content_frames_skip. reflexivity.
  - unfold process_streaming_response.
    destruct (content_frames _ _ _ lines) as [frames [e|]]; simpl.
    + eexists. split; [reflexivity|]. discriminate.
    + eexists. split; [reflexivity|]. intros _. eauto.
  - intros Hall. unfold process_streaming_response.
    rewrite content_frames_skip.
    replace (filter (fun line => skipped line = false) lines) with (@nil string).
    + reflexivity.
    + symmetry. induction Hall as [|line lines Hl _ IH]; [reflexivity|].
      rewrite filter_cons_False by (rewrite Hl; discriminate). exact IH.
Qed.

End ProxyMore.
(** ** The further properties on concrete inputs *)

Import Scenario.

Section MoreExamples.

#[local] Existing Instance Sample.json.
#[local] Existing Instance Sample.files.
#[local] Existing Instance Sample.redis.
#[local] Existing Instance Scenario.config.

(** *** The budgeter *)

Lemma X1_witness :
  _estimate_token_count ([asking] ++ [answer]) = Ok (1011 + 4)
  /\ 4 * length [asking] <= 1011.
Proof.
  destruct (X1_estimate_is_additive [asking] [answer]) as [A B].
  split; [rewrite A; vm_compute; reflexivity|].
  apply B. vm_compute. reflexivity.
Defined.

Lemma X2_witness :
  exists output, manage_context_window [asking; answer] 1000 = Ok output.
Proof.
  destruct (X2_budgeter_returns_when_estimator_does [asking; answer] 1000)
    as [A _].
  apply (A 1015). vm_compute. reflexivity.
Defined.

Lemma X3_witness :
  manage_context_window [message "user" "hello"] 4096
  = Ok [message "user" "hello"]
  /\ (output <- manage_context_window [message "user" "hello"] 4096 ;;
      manage_context_window output 4096) = Ok [message "user" "hello"].
Proof.
  apply (X3_within_budget_unchanged [message "user" "hello"] 4096 5).
  - vm_compute. reflexivity.
  - lia.
Defined.

Lemma X4_witness :
  manage_context_window [asking; answer] 1000 = Ok [answer]
  /\ [answer] ⊆+ [asking; answer].
Proof.
  assert (E : manage_context_window [asking; answer] 1000 = Ok [answer])
    by (vm_compute; reflexivity).
  split; [exact E|].
  exact (X4_output_drawn_from_conversation [asking; answer] 1000 [answer] E).
Defined.

Lemma X5_witness :
  manage_context_window [message "user" "A"; long_message; message "user" "B"] 1500
  = Ok [message "user" "A"; message "user" "B"]
  /\ in_conversation_order [message "user" "A"; message "user" "B"]
       [message "user" "A"; long_message; message "user" "B"].
Proof.
  assert (E : manage_context_window
                [message "user" "A"; long_message; message "user" "B"] 1500
              = Ok [message "user" "A"; message "user" "B"])
    by (vm_compute; reflexivity).
  assert (D : no_two_equal [message "user" "A"; long_message; message "user" "B"])
    by (apply no_two_equal_normal, (bool_decide_unpack _); vm_compute;
        reflexivity).
  split; [exact E|].
  exact (X5_order_kept_without_equal_messages _ 1500 _ D E).
Defined.

Lemma X6_witness :
  manage_context_window [message "system" "S"; message "user" "A"; long_message] 1500
  = Ok [message "system" "S"; message "user" "A"]
  /\ head [message "system" "S"; message "user" "A"] = Some (message "system" "S").
Proof.
  assert (E : manage_context_window
                [message "system" "S"; message "user" "A"; long_message] 1500
              = Ok [message "system" "S"; message "user" "A"])
    by (vm_compute; reflexivity).
  assert (D : no_two_equal
                [message "system" "S"; message "user" "A"; long_message])
    by (apply no_two_equal_normal, (bool_decide_unpack _); vm_compute;
        reflexivity).
  split; [exact E|].
  exact (X6_system_first_without_equal_messages
           (message "system" "S") [message "user" "A"; long_message] 1500 _
           D eq_refl E).
Defined.

Lemma X7_witness :
  exists older kept,
    [long_message; message "user" "A"] = older ++ kept
    /\ manage_context_window [long_message; message "user" "A"] 500
       = Ok ([] ++ kept)
    /\ ((Z.of_nat 0 <= 500)%Z ->
        exists n, _estimate_token_count ([] ++ kept) = Ok n
                  /\ (Z.of_nat n <= 500)%Z).
Proof.
  apply (X7_tail_fill_fits_the_budget
           [long_message; message "user" "A"] 500 2008
           [] [long_message; message "user" "A"] 0).
  - vm_compute. reflexivity.
  - vm_compute. reflexivity.
  - reflexivity.
  - reflexivity.
  - vm_compute. reflexivity.
Defined.

Lemma X9_witness :
  _identify_tool_sequences [message "user" "A"; answer; message "assistant" "B"]
  = [[message "user" "A"]; [answer]; [message "assistant" "B"]].
Proof.
  apply (X9_plain_conversation_splits_into_messages
           [message "user" "A"; answer; message "assistant" "B"]).
  repeat constructor; intros (_ & Hh & _); vm_compute in Hh; discriminate Hh.
Defined.

(** *** The path of a request *)

Lemma X11_witness :
  chat_completions workspace calling_backend silent_backend
    [("model", VStr "gpt-4")] "s1" [message "user" "hello"] fresh
  = (Ok (Body [("error", VStr "Model doesn't support tool calling")]), fresh).
Proof.
  apply (X11_unsupported_model_is_refused workspace calling_backend
           silent_backend
           [("model", VStr "gpt-4")] "s1" [message "user" "hello"] fresh "gpt-4").
  - reflexivity.
  - apply (bool_decide_unpack _). vm_compute. reflexivity.
  - reflexivity.
Defined.

Lemma X12_witness :
  let conversation :=
    [long_message; long_message; long_message; message "user" "A"] in
  let sent := VList (map VDict conversation) in
  exists saved request sv',
    prepare_chat [("messages", sent)] "s1" conversation fresh
    = (Ok (saved, request), sv')
    /\ lookup request "messages" = Some sent
    /\ lookup request "tools" = Some TOOL_DEFINITIONS
    /\ manage_context_window conversation 4096 = Ok saved
    /\ saved = [long_message; long_message; message "user" "A"]
    /\ sessions sv' = <["conversation:s1" := saved]> (sessions fresh).
Proof.
  intros conversation sent.
  assert (N : session_exists "s1" (sessions fresh) = false) by reflexivity.
  assert (B : manage_context_window conversation 4096
              = Ok [long_message; long_message; message "user" "A"])
    by (vm_compute; reflexivity).
  destruct (prepare_chat [("messages", sent)] "s1" conversation fresh)
    as [[[saved request]|e] sv'] eqn:E.
  - destruct (X12_backend_gets_the_messages_of_the_body _ _ _ _ _ _ _ E)
      as (Hm & Ht & _ & Hb & key & Hk & Hs).
    exists saved, request, sv'.
    injection Hk as <-.
    split; [reflexivity|]. split; [exact Hm|]. split; [exact Ht|].
    split; [exact (Hb N)|]. split; [|exact Hs].
    pose proof (Hb N) as Hb'. rewrite B in Hb'. injection Hb' as <-. reflexivity.
  - assert (S : match fst (prepare_chat [("messages", sent)] "s1"
                             conversation fresh) with
                | Ok _ => true
                | Raise _ => false
                end = true)
      by (vm_compute; reflexivity).
    rewrite E in S. discriminate S.
Defined.


Lemma X14_witness :
  (exists request sv1,
     prepare_chat [] "s1" [] fresh = (Ok ([], request), sv1)
     /\ sessions sv1 !! "conversation:s1" = Some [])
  /\ exists sv',
       prepare_chat [] "s1" [message "system" "S"; message "user" "hello"]
         (with_session [])
       = (Raise (Exc OtherException "list index out of range"), sv')
       /\ sessions sv' = sessions (with_session [])
       /\ chat_completions workspace calling_backend silent_backend []
            "s1" [message "system" "S"; message "user" "hello"]
            (with_session [])
          = (Raise (Exc OtherException "list index out of range"), sv').
Proof.
  assert (P : place "s1" = Ok "conversation:s1") by reflexivity.
  destruct (X14_empty_history_breaks_the_session workspace calling_backend
              silent_backend "s1" "conversation:s1" P) as [A B].
  split; [apply (A [] fresh); reflexivity|].
  assert (L : sessions (with_session []) !! "conversation:s1" = Some [])
    by reflexivity.
  destruct (B [] (message "system" "S") [message "user" "hello"]
              (with_session []) L eq_refl) as (sv' & E & S & C).
  exists sv'. split; [exact E|]. split; [exact S|].
  apply C. vm_compute. reflexivity.
Defined.

Lemma X15_witness :
  exists (reply : dict) (sv2 : server) (tool_calls tool_messages : list dict)
         (key : string),
    chat_completions workspace calling_backend silent_backend [] "s1"
      [message "user" "read it"] fresh
    = (Ok (Body reply), sv2)
    /\ transform_tool_calls (VList [backend_read]) = Ok tool_calls
    /\ single_choice reply
       = Some (VDict [ ("index", VInt 0);
                       ("message",
                        VDict [ ("role", VStr "assistant");
                                ("tool_calls", VList (map VDict tool_calls)) ]);
                       ("finish_reason", VStr "tool_calls") ])
    /\ Forall2 (answers workspace) tool_calls tool_messages
    /\ place "s1" = Ok key
    /\ sessions sv2 !! key
       = Some ([message "user" "read it"]
               ++ [[ ("role", VStr "assistant");
                     ("tool_calls", VList (map VDict tool_calls)) ]]
               ++ tool_messages).
Proof.
  destruct (prepare_chat [] "s1" [message "user" "read it"] fresh)
    as [[[saved request]|e] sv1] eqn:E.
  2:{ assert (S : match fst (prepare_chat [] "s1" [message "user" "read it"]
                               fresh) with
                  | Ok _ => true
                  | Raise _ => false
                  end = true)
        by (vm_compute; reflexivity).
      rewrite E in S. discriminate S. }
  assert (S : match fst (prepare_chat [] "s1" [message "user" "read it"]
                           fresh) with
              | Ok (kept, _) => kept
              | Raise _ => []
              end = [message "user" "read it"])
    by (vm_compute; reflexivity).
  rewrite E in S. simpl in S. subst saved.
  eapply (X15_tool_calls_end_to_end workspace calling_backend silent_backend
            [] "s1" [message "user" "read it"] _ request _ _
            [backend_read] fresh sv1).
  - vm_compute. reflexivity.
  - reflexivity.
  - exact E.
  - reflexivity.
  - reflexivity.
  - reflexivity.
  - discriminate.
  - repeat constructor.
    exists [("function", VDict [ ("name", VStr "builtin_read_file");
                                 ("arguments", VDict []) ])],
           [("name", VStr "builtin_read_file"); ("arguments", VDict [])],
           "builtin_read_file", (VDict []).
    repeat split.
Defined.

(** *** The translations *)

Lemma X17_witness :
  exists translated,
    transform_tool_calls (VList [backend_ls; backend_read]) = Ok translated
    /\ (fun t => get t "id" VNone) <$> translated
       = [VStr "call_0"; VStr "call_1"]
    /\ NoDup ((fun t => get t "id" VNone) <$> translated).
Proof.
  destruct (transform_tool_calls (VList [backend_ls; backend_read]))
    as [translated|e] eqn:E; [|vm_compute in E; discriminate E].
  exists translated. split; [reflexivity|].
  apply (X17_synthetic_ids_are_distinct [backend_ls; backend_read] translated).
  - repeat constructor; intros c [= <-]; reflexivity.
  - exact E.
Defined.

Lemma X19_witness :
  exists before,
    [sse (chunk_with (VStr "") (VInt 0) (VStr "")
            [("content", VStr "Hi")] VNone); done_frame]
    = before ++ [done_frame]
    /\ forall b,
         transform_ollama_stream ([dumps line_hi] ++ b)
         = (before ++ fst (transform_ollama_stream b),
            snd (transform_ollama_stream b)).
Proof.
  apply (X19_frames_follow_the_lines [dumps line_hi]).
  vm_compute. reflexivity.
Defined.

Lemma X20_witness :
  @transform_ollama_stream json_null ([dumps line_hi] ++ "null" :: [dumps line_hi])
  = ([sse (chunk_with (VStr "") (VInt 0) (VStr "")
             [("content", VStr "Hi")] VNone)],
     Some (Exc AttributeError "NoneType object has no attribute get"))
  /\ exists text,
       Exc AttributeError "NoneType object has no attribute get"
       = Exc AttributeError text.
Proof.
  destruct (@X20_a_failing_line_ends_the_stream json_null
              [dumps line_hi] [dumps line_hi]
              [sse (chunk_with (VStr "") (VInt 0) (VStr "")
                      [("content", VStr "Hi")] VNone)]
              "null" VNone
              (Exc AttributeError "NoneType object has no attribute get"))
    as [A B].
  - vm_compute. reflexivity.
  - reflexivity.
  - reflexivity.
  - vm_compute. reflexivity.
  - split; [exact A|]. apply B. discriminate.
Defined.


(** *** The tools *)

Lemma X23_witness :
  execute_tool workspace (VStr "builtin_read_file") (VList []) disk
  = (Ok (error_result
           ("Tool execution failed: "
            +:+ "argument after ** must be a mapping, not list")), disk).
Proof.
  destruct (X23_misfit_arguments_touch_nothing workspace (VList []) disk)
    as (A & _).
  apply (A (Exc TypeError "argument after ** must be a mapping, not list")).
  reflexivity.
Defined.

Lemma X24_witness :
  _resolve_path workspace beside disk
  = Ok (resolve disk workspace +:+ "_evil/secret.txt")
  /\ read_file workspace (VStr beside) disk
     = (VDict [("content", VStr "secret")], disk).
Proof.
  destruct (X24_guard_lets_sibling_directories_through workspace
              beside "_evil/secret.txt" disk) as [A B]; [reflexivity|].
  split; [exact A|].
  apply B; vm_compute; reflexivity.
Defined.

(** *** The stream of [proxy.py] *)

Lemma X26_witness :
  process_streaming_response [""; "not json"] (VStr "m") "1" 0
  = ([ sse (stream_chunk "chatcmpl-1" 0 (VStr "m")
              [("role", VStr "assistant")] VNone);
       sse (stream_chunk "chatcmpl-1" 0 (VStr "m") [] (VStr "stop"));
       done_frame ], None).
Proof.
  destruct (X26_proxy_stream_envelope [""; "not json"] (VStr "m") "1" 0)
    as (_ & _ & A).
  apply A. repeat constructor.
Defined.

End MoreExamples.
